(** * ComplyFlow gateway (src/main.py): a shallow embedding

    Python strings are sequences of Unicode code points; they are modelled
    as [list Z].  JSON values are the values produced by [json.loads]
    (None, bool, int, float, str, list, dict).  A dict keeps its insertion
    order, so it is an association list; [dict_get] follows the decoder,
    where the last binding of a repeated key wins. *)

From Stdlib Require Import ZArith List String Ascii Bool Lia.
Import ListNotations.
Open Scope Z_scope.
Set Warnings "-register-all".

(* ------------------------------------------------------------------ *)
(** ** Python strings *)

Definition pystr := list Z.

(** An ASCII literal as a Python string. *)
Definition lit (s : string) : pystr :=
  map (fun c => Z.of_nat (nat_of_ascii c)) (list_ascii_of_string s).

Definition pystr_eqb (a b : pystr) : bool :=
  if list_eq_dec Z.eq_dec a b then true else false.

(** [sep.join(xs)] *)
Fixpoint py_join (sep : pystr) (xs : list pystr) : pystr :=
  match xs with
  | [] => []
  | [x] => x
  | x :: t => x ++ sep ++ py_join sep t
  end.

(** The code points [str.isspace] accepts (Py_UNICODE_ISSPACE). *)
Definition py_isspace (c : Z) : bool :=
  ((9 <=? c) && (c <=? 13)) || ((28 <=? c) && (c <=? 32)) || (c =? 133)
  || (c =? 160) || (c =? 5760) || ((8192 <=? c) && (c <=? 8202))
  || (c =? 8232) || (c =? 8233) || (c =? 8239) || (c =? 8287) || (c =? 12288).

Fixpoint lstrip (s : pystr) : pystr :=
  match s with
  | [] => []
  | c :: t => if py_isspace c then lstrip t else s
  end.

(** [s.strip()] *)
Definition py_strip (s : pystr) : pystr := rev (lstrip (rev (lstrip s))).

(** Decimal digits of a non-negative integer ([fuel] bounds the digit count). *)
Fixpoint dec_digits (fuel : nat) (n : Z) (acc : pystr) : pystr :=
  match fuel with
  | O => acc
  | S f =>
      let acc' := (48 + n mod 10) :: acc in
      if n <? 10 then acc' else dec_digits f (n / 10) acc'
  end.

(** [str(n)] for a Python int. *)
Definition z_dec (n : Z) : pystr :=
  match n with
  | Z0 => [48]
  | Zpos p => dec_digits (Pos.size_nat p) n []
  | Zneg p => 45 :: dec_digits (Pos.size_nat p) (Zpos p) []
  end.

Definition hex_digit (d : Z) : Z := if d <? 10 then 48 + d else 87 + d.

(** Two lowercase hex digits, as in the [\xhh] escapes of [repr]. *)
Definition hex2 (c : Z) : pystr :=
  [hex_digit (Z.shiftr c 4 mod 16); hex_digit (c mod 16)].

(* ------------------------------------------------------------------ *)
(** ** JSON values as decoded by [json.loads] *)

(** A float is carried by its [repr] (what [str] prints for it); the gateway
    never computes with floats, it only tests their truth and prints them. *)
Inductive json : Type :=
| JNull
| JBool (b : bool)
| JInt (z : Z)
| JFloat (repr : pystr)
| JStr (s : pystr)
| JList (l : list json)
| JObj (kv : list (pystr * json)).

Definition dict := list (pystr * json).

(** [d.get(k)] on a decoded dict: [None] when the key is absent. *)
Definition dict_get (k : pystr) (d : dict) : option json :=
  fold_left (fun acc kv => if pystr_eqb k (fst kv) then Some (snd kv) else acc)
            d None.

(** [bool(v)] *)
Definition py_truthy (v : json) : bool :=
  match v with
  | JNull => false
  | JBool b => b
  | JInt z => negb (z =? 0)
  | JFloat r => negb (pystr_eqb r (lit "0.0") || pystr_eqb r (lit "-0.0"))
  | JStr s => negb (pystr_eqb s [])
  | JList l => match l with [] => false | _ => true end
  | JObj kv => match kv with [] => false | _ => true end
  end.

(** [a or b] *)
Definition py_or (a b : json) : json := if py_truthy a then a else b.

Definition is_str (v : json) : bool :=
  match v with JStr _ => true | _ => false end.

(** [repr] of a str: quote choice and escapes of CPython for the ASCII
    range and the C1 controls; other code points are printed as they are. *)
Definition repr_char (q c : Z) : pystr :=
  if c =? 92 then [92; 92]
  else if c =? q then [92; q]
  else if c =? 9 then [92; 116]
  else if c =? 10 then [92; 110]
  else if c =? 13 then [92; 114]
  else if (c <? 32) || ((127 <=? c) && (c <=? 160)) then 92 :: 120 :: hex2 c
  else [c].

Definition repr_str (s : pystr) : pystr :=
  let q := if existsb (Z.eqb 39) s && negb (existsb (Z.eqb 34) s) then 34 else 39 in
  q :: flat_map (repr_char q) s ++ [q].

(** [repr(v)] of a decoded value (used by [str] on lists and dicts). *)
Fixpoint py_repr (v : json) : pystr :=
  match v with
  | JNull => lit "None"
  | JBool true => lit "True"
  | JBool false => lit "False"
  | JInt z => z_dec z
  | JFloat r => r
  | JStr s => repr_str s
  | JList l =>
      [91] ++ (fix go (l : list json) : pystr :=
                 match l with
                 | [] => []
                 | x :: t =>
                     py_repr x ++ match t with [] => [] | _ => lit ", " ++ go t end
                 end) l ++ [93]
  | JObj kv =>
      [123] ++ (fix go (kv : list (pystr * json)) : pystr :=
                  match kv with
                  | [] => []
                  | (k, x) :: t =>
                      repr_str k ++ lit ": " ++ py_repr x
                      ++ match t with [] => [] | _ => lit ", " ++ go t end
                  end) kv ++ [125]
  end.

(** [str(v)] *)
Definition py_str (v : json) : pystr :=
  match v with
  | JStr s => s
  | _ => py_repr v
  end.

(* ------------------------------------------------------------------ *)
(** ** Exceptions and fallible computations *)

Inductive exn : Type :=
| AttributeError                       (* [x.get] on a value that is not a dict *)
| TypeError                            (* iterating a value that is not iterable *)
| RuntimeError (msg : pystr)
| RequestException (msg : pystr)       (* transport error or timeout in [requests] *)
| JSONDecodeError (msg : pystr)        (* [r.json()] on a body that is not JSON *)
| AuthError (msg : pystr)              (* [google.auth] failures *)
| HTTPException (status : Z) (detail : pystr)
| ValidationError.                     (* pydantic rejecting a field *)

(** [str(e)] *)
Definition exn_str (e : exn) : pystr :=
  match e with
  | AttributeError => lit "'object' has no attribute 'get'"
  | TypeError => lit "object is not iterable"
  | RuntimeError m | RequestException m | JSONDecodeError m | AuthError m => m
  | HTTPException _ d => d
  | ValidationError => lit "validation error"
  end.

Inductive result (A : Type) : Type :=
| Ok (a : A)
| Err (e : exn).
Arguments Ok {A} a.
Arguments Err {A} e.

Definition rbind {A B} (r : result A) (k : A -> result B) : result B :=
  match r with Ok a => k a | Err e => Err e end.

Notation "'let?' x ':=' c 'in' k" := (rbind c (fun x => k))
  (at level 200, x name, c at level 100, k at level 200).

(** [v.get(k, default)]: only a dict has [get]. *)
Definition py_get (v : json) (k : pystr) (default : json) : result json :=
  match v with
  | JObj d => Ok (match dict_get k d with Some x => x | None => default end)
  | _ => Err AttributeError
  end.

(** [for x in v]: a list yields its items, a dict its keys, a str its
    characters; other values are not iterable. *)
Definition py_iter (v : json) : result (list json) :=
  match v with
  | JList l => Ok l
  | JObj d => Ok (map (fun kv => JStr (fst kv)) d)
  | JStr s => Ok (map (fun c => JStr [c]) s)
  | _ => Err TypeError
  end.

(* ------------------------------------------------------------------ *)
(** ** ResponseNormalizer *)

(** The fallback reply of the source (a Hebrew sentence), as code points. *)
Definition fallback_reply : pystr :=
  [1511; 1497; 1489; 1500; 1514; 1497; 46; 32; 1488; 1497; 1498; 32; 1514;
   1512; 1510; 1492; 32; 1500; 1492; 1502; 1513; 1497; 1498; 63].

(** One turn of the loop of [_extract_reply_text]:
    [txt = (m.get("text") or {}).get("text")], then extend [chunks] with the
    str items of a list, or append a str. *)
Definition reply_step (chunks : list pystr) (m : json) : result (list pystr) :=
  let? t := py_get m (lit "text") JNull in
  let? txt := py_get (py_or t (JObj [])) (lit "text") JNull in
  match txt with
  | JList l =>
      Ok (chunks ++ flat_map (fun t => match t with JStr s => [s] | _ => [] end) l)
  | JStr s => Ok (chunks ++ [s])
  | _ => Ok chunks
  end.

(** The text payload of one message as the loop reads it:
    [(m.get("text") or {}).get("text")]. *)
Definition message_payload (m : json) : result json :=
  let? t := py_get m (lit "text") JNull in
  py_get (py_or t (JObj [])) (lit "text") JNull.

Fixpoint reply_loop (chunks : list pystr) (msgs : list json) : result (list pystr) :=
  match msgs with
  | [] => Ok chunks
  | m :: t => let? c := reply_step chunks m in reply_loop c t
  end.

(** [_extract_reply_text(df_response)] *)
Definition _extract_reply_text (df_response : json) : result pystr :=
  let? q := py_get df_response (lit "queryResult") (JObj []) in
  let query_result := py_or q (JObj []) in
  let? ms := py_get query_result (lit "responseMessages") (JList []) in
  let? msgs := py_iter (py_or ms (JList [])) in
  let? chunks := reply_loop [] msgs in
  Ok (match chunks with
      | [] => fallback_reply
      | _ => py_strip (py_join [10] chunks)
      end).

(** [_extract_session_params(df_response)] *)
Definition _extract_session_params (df_response : json) : result dict :=
  let? q := py_get df_response (lit "queryResult") (JObj []) in
  let query_result := py_or q (JObj []) in
  let? p := py_get query_result (lit "parameters") JNull in
  match py_or p (JObj []) with
  | JObj d => Ok d
  | _ => Ok []
  end.

Record ui_view := {
  business_stage : option pystr;
  license_status : option pystr;
  business_tags : option pystr;
  compliance_checklist : list pystr
}.

Definition dict_get_none (k : pystr) (d : dict) : json :=
  match dict_get k d with Some v => v | None => JNull end.

(** [str(v) if v is not None else None] *)
Definition str_or_none (v : json) : option pystr :=
  match v with JNull => None | _ => Some (py_str v) end.

(** [_normalize_for_ui(params)] *)
Definition _normalize_for_ui (params : dict) : ui_view :=
  let checklist := py_or (dict_get_none (lit "compliance_checklist") params) (JList []) in
  let checklist_list :=
    match checklist with
    | JStr s => [s]
    | JList l => map py_str l
    | _ => []
    end in
  {| business_stage := str_or_none (dict_get_none (lit "business_stage") params);
     license_status := str_or_none (dict_get_none (lit "license_status") params);
     business_tags := str_or_none (dict_get_none (lit "business_tags") params);
     compliance_checklist := checklist_list |}.

Definition resp_of_messages (ms : list json) : json :=
  JObj [(lit "queryResult", JObj [(lit "responseMessages", JList ms)])].

Example extract_reply_spec_example :
  _extract_reply_text
    (resp_of_messages
       [JObj [(lit "text", JObj [(lit "text", JList [JStr (lit "a"); JStr (lit "b")])])];
        JObj [(lit "text", JObj [(lit "text", JStr (lit "c"))])]])
  = Ok (lit "a" ++ [10] ++ lit "b" ++ [10] ++ lit "c").
Proof. vm_compute. reflexivity. Qed.

Example extract_reply_empty_example :
  _extract_reply_text (resp_of_messages []) = Ok fallback_reply.
Proof. reflexivity. Qed.

(* ------------------------------------------------------------------ *)
(** ** Configuration, requests and responses *)

(** The module-level constants read from the environment at import time. *)
Record config := {
  PROJECT_ID : pystr;
  LOCATION : pystr;
  AGENT_ID : pystr;
  LANGUAGE_CODE : pystr;
  DIALOGFLOW_API_BASE : pystr;
  CURRENT_PLAYBOOK : option pystr;
  VISION_TOOL_URL : pystr
}.

Definition AGENT_PATH (cfg : config) : pystr :=
  lit "projects/" ++ PROJECT_ID cfg ++ lit "/locations/" ++ LOCATION cfg
  ++ lit "/agents/" ++ AGENT_ID cfg.

Record ChatRequest := {
  req_session_id : option pystr;
  req_message : pystr;
  req_image_data : option pystr
}.

Record ChatResponse := {
  session_id : pystr;
  reply : pystr;
  business_profile : list (pystr * option pystr);
  resp_compliance_checklist : list pystr;
  vision_debug : option json;
  raw_agent_response : option json
}.

(** Truth of an [Optional[str]]. *)
Definition opt_truthy (o : option pystr) : bool :=
  match o with Some s => negb (pystr_eqb s []) | None => false end.

(* ------------------------------------------------------------------ *)
(** ** The outside world *)

(** What [requests.post] gives back: it raises, or yields a response whose
    [r.json()] either decodes or raises. *)
Inductive http_outcome :=
| HRaise (e : exn)
| HResp (status : Z) (text : pystr) (body : sum pystr json).

(** What [google.auth.default] and [creds.refresh] give back: they raise,
    or yield [creds.token]. *)
Inductive auth_outcome :=
| AuthRaise (e : exn)
| AuthToken (token : option pystr).

(** The answers of the environment to the effects of one request:
    the 128 random bits behind [uuid.uuid4()], the credential refresh, the
    two downstream services (as functions of what is posted to them) and
    the debug variables read by [os.getenv] in the handler. *)
Record world := {
  w_uuid_bits : Z;
  w_auth : auth_outcome;
  w_vision : pystr -> json -> http_outcome;
  w_agent : pystr -> pystr -> json -> http_outcome;   (* url, bearer token, body *)
  w_DEBUG_RAW : option pystr;
  w_DEBUG_VISION : option pystr
}.

(** Observable effects of the handler, in the order it performs them. *)
Inductive event :=
| ETokenRefresh
| EVisionPost (url : pystr) (body : json)
| EAgentPost (url : pystr) (token : pystr) (body : json).

(** The handler's monad: exceptions and a trace of effects. *)
Definition M (A : Type) := list event -> result A * list event.

Definition mret {A} (a : A) : M A := fun tr => (Ok a, tr).
Definition mraise {A} (e : exn) : M A := fun tr => (Err e, tr).
Definition mbind {A B} (c : M A) (k : A -> M B) : M B :=
  fun tr => match c tr with
            | (Ok a, tr') => k a tr'
            | (Err e, tr') => (Err e, tr')
            end.
Definition emit (ev : event) : M unit := fun tr => (Ok tt, tr ++ [ev]).
Definition lift {A} (r : result A) : M A :=
  match r with Ok a => mret a | Err e => mraise e end.

Notation "x <- c ;; k" := (mbind c (fun x => k))
  (at level 61, c at next level, right associativity).
Notation "c ;;; k" := (mbind c (fun _ => k)) (at level 61, right associativity).

(* ------------------------------------------------------------------ *)
(** ** SessionIdentity: [str(uuid.uuid4())] *)

(** [uuid.UUID(bytes=os.urandom(16), version=4).int] *)
Definition uuid4_int (bits : Z) : Z :=
  let n := Z.land bits (Z.ones 128) in
  let n := Z.land n (Z.lnot (Z.shiftl 49152 48)) in
  let n := Z.lor n (Z.shiftl 32768 48) in
  let n := Z.land n (Z.lnot (Z.shiftl 61440 64)) in
  Z.lor n (Z.shiftl 4 76).

(** [str(u)]: the 32 lowercase hex digits of [u.int], grouped 8-4-4-4-12. *)
Definition uuid_str (n : Z) : pystr :=
  let hx := map (fun i => hex_digit (Z.land (Z.shiftr n (4 * (31 - Z.of_nat i))) 15))
                (seq 0 32) in
  firstn 8 hx ++ [45] ++ firstn 4 (skipn 8 hx) ++ [45] ++ firstn 4 (skipn 12 hx)
  ++ [45] ++ firstn 4 (skipn 16 hx) ++ [45] ++ skipn 20 hx.

(** [(req.session_id or str(uuid.uuid4()))[:36]] *)
Definition resolve_session_id (w : world) (candidate : option pystr) : pystr :=
  firstn 36 (match candidate with
             | Some s => if opt_truthy candidate then s else uuid_str (uuid4_int (w_uuid_bits w))
             | None => uuid_str (uuid4_int (w_uuid_bits w))
             end).

(* ------------------------------------------------------------------ *)
(** ** CredentialProvider: [_get_access_token] *)

Definition _get_access_token (w : world) : M pystr :=
  emit ETokenRefresh ;;;
  match w_auth w with
  | AuthRaise e => mraise e
  | AuthToken t =>
      match t with
      | Some tok => if opt_truthy t then mret tok
                    else mraise (RuntimeError (lit "Failed to obtain access token from ADC"))
      | None => mraise (RuntimeError (lit "Failed to obtain access token from ADC"))
      end
  end.

(* ------------------------------------------------------------------ *)
(** ** VisionOrchestrator: [_call_vision_tool] *)

(** The body of the [try] block and its [except Exception] clause, given
    what [requests.post] returned. *)
Definition vision_result_of (r : http_outcome) : dict :=
  match r with
  | HRaise e => [(lit "success", JBool false); (lit "error", JStr (exn_str e))]
  | HResp status text body =>
      if 400 <=? status then
        [(lit "success", JBool false);
         (lit "error", JStr (lit "Vision HTTP " ++ z_dec status ++ lit ": " ++ firstn 500 text))]
      else
        match body with
        | inl msg => [(lit "success", JBool false); (lit "error", JStr msg)]
        | inr (JObj data) =>
            match dict_get (lit "vision_data") data with
            | Some _ => data
            | None => [(lit "success", JBool false);
                       (lit "error", JStr (lit "Vision payload missing vision_data"))]
            end
        | inr _ => [(lit "success", JBool false);
                    (lit "error", JStr (lit "Vision payload missing vision_data"))]
        end
  end.

Definition vision_request_body (image_b64 : pystr) : json :=
  JObj [(lit "image_data", JStr image_b64)].

Definition _call_vision_tool (cfg : config) (w : world) (image_b64 : pystr) : M dict :=
  let body := vision_request_body image_b64 in
  emit (EVisionPost (VISION_TOOL_URL cfg) body) ;;;
  mret (vision_result_of (w_vision w (VISION_TOOL_URL cfg) body)).

(* ------------------------------------------------------------------ *)
(** ** AgentClient *)

(** [vision_result and vision_result.get("success")
     and isinstance(vision_result.get("vision_data"), dict)]: the payload
    forwarded when the test passes. *)
Definition forwarded_vision_data (vision_result : option dict) : option json :=
  match vision_result with
  | Some d =>
      if py_truthy (JObj d) && py_truthy (dict_get_none (lit "success") d) then
        match dict_get_none (lit "vision_data") d with
        | JObj x => Some (JObj x)
        | _ => None
        end
      else None
  | None => None
  end.

(** The detectIntent request body built by [chat]. *)
Definition build_body (cfg : config) (message : pystr) (vision_result : option dict) : json :=
  let query_params :=
    match CURRENT_PLAYBOOK cfg with
    | Some pb => if opt_truthy (CURRENT_PLAYBOOK cfg)
                 then [(lit "currentPlaybook", JStr pb)] else []
    | None => []
    end
    ++ match forwarded_vision_data vision_result with
       | Some vd => [(lit "parameters",
                      JObj [(lit "vision_data", vd); (lit "has_image", JBool true)])]
       | None => []
       end in
  JObj ([(lit "queryInput",
          JObj [(lit "languageCode", JStr (LANGUAGE_CODE cfg));
                (lit "text", JObj [(lit "text", JStr message)])])]
        ++ match query_params with [] => [] | _ => [(lit "queryParams", JObj query_params)] end).

(** [requests.post(url, headers=..., json=body, timeout=30)] to the agent. *)
Definition agent_post (w : world) (url token : pystr) (body : json)
  : M (Z * pystr * sum pystr json) :=
  emit (EAgentPost url token body) ;;;
  match w_agent w url token body with
  | HRaise e => mraise e
  | HResp status text b => mret (status, text, b)
  end.

(** [r.json()] *)
Definition resp_json (b : sum pystr json) : result json :=
  match b with inl msg => Err (JSONDecodeError msg) | inr v => Ok v end.

(** Pydantic's check of an [Optional[Dict[str, Any]]] field. *)
Definition validate_opt_dict (o : option json) : result (option json) :=
  match o with
  | None => Ok None
  | Some (JObj d) => Ok (Some (JObj d))
  | Some _ => Err ValidationError
  end.

Definition getenv_is_1 (v : option pystr) : bool :=
  match v with Some s => pystr_eqb s (lit "1") | None => false end.

(* ------------------------------------------------------------------ *)
(** ** GatewayOrchestrator: the [/chat] handler *)

(** [f"{DIALOGFLOW_API_BASE}/{AGENT_PATH}/sessions/{session_id}:detectIntent"] *)
Definition detect_intent_url (cfg : config) (sid : pystr) : pystr :=
  let session_path := AGENT_PATH cfg ++ lit "/sessions/" ++ sid in
  DIALOGFLOW_API_BASE cfg ++ lit "/" ++ session_path ++ lit ":detectIntent".

Definition chat (cfg : config) (w : world) (req : ChatRequest) : M ChatResponse :=
  let sid := resolve_session_id w (req_session_id req) in
  let url := detect_intent_url cfg sid in
  token <- _get_access_token w ;;
  vision_result <-
    (match req_image_data req with
     | Some img =>
         if opt_truthy (req_image_data req)
         then (r <- _call_vision_tool cfg w img ;; mret (Some r))
         else mret None
     | None => mret None
     end) ;;
  let body := build_body cfg (req_message req) vision_result in
  resp <- agent_post w url token body ;;
  let '(status, text, b) := resp in
  if 400 <=? status then mraise (HTTPException status text) else
  df_response <- lift (resp_json b) ;;
  reply_text <- lift (_extract_reply_text df_response) ;;
  params <- lift (_extract_session_params df_response) ;;
  let ui := _normalize_for_ui params in
  let debug_raw := getenv_is_1 (w_DEBUG_RAW w) in
  let debug_vision := getenv_is_1 (w_DEBUG_VISION w) in
  vd <- lift (validate_opt_dict
                (if debug_vision then option_map JObj vision_result else None)) ;;
  rd <- lift (validate_opt_dict (if debug_raw then Some df_response else None)) ;;
  mret {| session_id := sid;
          reply := reply_text;
          business_profile := [(lit "business_stage", business_stage ui);
                               (lit "license_status", license_status ui);
                               (lit "business_tags", business_tags ui)];
          resp_compliance_checklist := compliance_checklist ui;
          vision_debug := vd;
          raw_agent_response := rd |}.

Definition run_chat (cfg : config) (w : world) (req : ChatRequest)
  : result ChatResponse * list event :=
  chat cfg w req [].

(** The JSON body FastAPI sends for a [ChatResponse] returned under
    [response_model=ChatResponse] with its defaults ([exclude_none=False]):
    every field of the model, [None] rendered as [null]. *)
Definition serialize_ChatResponse (r : ChatResponse) : json :=
  let opt v := match v with Some x => x | None => JNull end in
  JObj [(lit "session_id", JStr (session_id r));
        (lit "reply", JStr (reply r));
        (lit "business_profile",
          JObj (map (fun kv => (fst kv, match snd kv with Some s => JStr s | None => JNull end))
                    (business_profile r)));
        (lit "compliance_checklist", JList (map JStr (resp_compliance_checklist r)));
        (lit "vision_debug", opt (vision_debug r));
        (lit "raw_agent_response", opt (raw_agent_response r))].

(** The HTTP reply: status and JSON body.  An [HTTPException] becomes
    [{"detail": ...}] with its status; any other exception a 500. *)
Definition http_reply (r : result ChatResponse) : Z * json :=
  match r with
  | Ok resp => (200, serialize_ChatResponse resp)
  | Err (HTTPException s d) => (s, JObj [(lit "detail", JStr d)])
  | Err _ => (500, JStr (lit "Internal Server Error"))
  end.

(* ------------------------------------------------------------------ *)
(** ** Configuration read at import time *)

(** [CURRENT_PLAYBOOK = os.getenv("CURRENT_PLAYBOOK")] then
    [CURRENT_PLAYBOOK.strip() if CURRENT_PLAYBOOK else None]. *)
Definition current_playbook_of_env (env : option pystr) : option pystr :=
  match env with
  | Some s => if opt_truthy env then Some (py_strip s) else None
  | None => None
  end.

(** [s.split(sep)] for a one-character separator. *)
Fixpoint py_split (sep : Z) (s : pystr) : list pystr :=
  match s with
  | [] => [[]]
  | c :: t =>
      if c =? sep then [] :: py_split sep t
      else match py_split sep t with
           | [] => [[c]]
           | x :: r => (c :: x) :: r
           end
  end.

(** [CORS_ALLOW_ORIGINS_RAW = os.getenv("CORS_ALLOW_ORIGINS", "*").strip()]
    and [["*"] if raw == "*" else [o.strip() for o in raw.split(",") if o.strip()]]. *)
Definition cors_allow_origins (env : option pystr) : list pystr :=
  let raw := py_strip (match env with Some s => s | None => lit "*" end) in
  if pystr_eqb raw (lit "*") then [lit "*"]
  else flat_map (fun o => let x := py_strip o in if pystr_eqb x [] then [] else [x])
                (py_split 44 raw).

(* ------------------------------------------------------------------ *)
(** ** A sample deployment *)

Definition sample_cfg : config := {|
  PROJECT_ID := lit "yuvalfrank";
  LOCATION := lit "us-central1";
  AGENT_ID := lit "b470ba36-2b1d-4f48-a334-3bcdc5162445";
  LANGUAGE_CODE := lit "he";
  DIALOGFLOW_API_BASE := lit "https://dialogflow.googleapis.com/v3";
  CURRENT_PLAYBOOK := None;
  VISION_TOOL_URL := lit "https://business-vision-analyzer-550357153823.us-central1.run.app/"
|}.

Definition text_message (v : json) : json := JObj [(lit "text", JObj [(lit "text", v)])].

Definition sample_agent_body : json :=
  JObj [(lit "queryResult",
         JObj [(lit "responseMessages", JList [text_message (JStr (lit "Hello"))]);
               (lit "parameters", JObj [(lit "business_stage", JStr (lit "new"))])])].

(** A world where the token is granted, the vision service is down and
    the agent answers 200; debug variables unset. *)
Definition sample_world : world := {|
  w_uuid_bits := 123456789123456789123456789;
  w_auth := AuthToken (Some (lit "tok"));
  w_vision := fun _ _ => HRaise (RequestException (lit "Connection refused"));
  w_agent := fun _ _ _ => HResp 200 (lit "{}") (inr sample_agent_body);
  w_DEBUG_RAW := None;
  w_DEBUG_VISION := None
|}.

Definition sample_request (sid : option pystr) : ChatRequest := {|
  req_session_id := sid;
  req_message := lit "I want to open a new business";
  req_image_data := Some (lit "aGVsbG8=")
|}.

Example sample_chat_reply :
  option_map reply (match fst (run_chat sample_cfg sample_world (sample_request None)) with
                    | Ok r => Some r | Err _ => None end)
  = Some (lit "Hello").
Proof. vm_compute. reflexivity. Qed.

Example sample_uuid_len :
  List.length (resolve_session_id sample_world None) = 36%nat.
Proof. vm_compute. reflexivity. Qed.

(* ------------------------------------------------------------------ *)
(** ** Derived views of one run *)

(** The vision result the handler holds after step 1. *)
Definition chat_vision_result (cfg : config) (w : world) (req : ChatRequest) : option dict :=
  match req_image_data req with
  | Some img =>
      if opt_truthy (req_image_data req)
      then Some (vision_result_of (w_vision w (VISION_TOOL_URL cfg) (vision_request_body img)))
      else None
  | None => None
  end.

Definition chat_vision_events (cfg : config) (req : ChatRequest) : list event :=
  match req_image_data req with
  | Some img =>
      if opt_truthy (req_image_data req)
      then [EVisionPost (VISION_TOOL_URL cfg) (vision_request_body img)] else []
  | None => []
  end.

(** [v[k]] for a dict [v], when the key exists. *)
Definition json_field (k : pystr) (v : json) : option json :=
  match v with JObj d => dict_get k d | _ => None end.

(** [body["queryParams"]["parameters"][k]], when it exists. *)
Definition sent_parameter (k : pystr) (body : json) : option json :=
  match body with
  | JObj b =>
      match dict_get (lit "queryParams") b with
      | Some (JObj q) =>
          match dict_get (lit "parameters") q with
          | Some (JObj p) => dict_get k p
          | _ => None
          end
      | _ => None
      end
  | _ => None
  end.

(* ------------------------------------------------------------------ *)
(** ** Lemmas *)

Lemma opt_truthy_some (s : pystr) : s <> [] -> opt_truthy (Some s) = true.
Proof.
  intros H. unfold opt_truthy, pystr_eqb.
  destruct (list_eq_dec Z.eq_dec s []); [contradiction | reflexivity].
Qed.

Lemma mbind_ok {A B} (c : M A) (k : A -> M B) tr a tr' :
  c tr = (Ok a, tr') -> mbind c k tr = k a tr'.
Proof. intros H. unfold mbind. rewrite H. reflexivity. Qed.

Lemma lift_trace {A} (r : result A) tr : snd (lift r tr) = tr.
Proof. destruct r; reflexivity. Qed.

Lemma mbind_lift_trace {A B} (r : result A) (k : A -> M B) tr :
  (forall a tr', snd (k a tr') = tr') -> snd (mbind (lift r) k tr) = tr.
Proof. intros Hk. destruct r; simpl; [apply Hk | reflexivity]. Qed.

Lemma get_access_token_ok w tok tr :
  w_auth w = AuthToken (Some tok) -> tok <> [] ->
  _get_access_token w tr = (Ok tok, tr ++ [ETokenRefresh]).
Proof.
  intros Ha Hne. unfold _get_access_token, mbind, emit.
  rewrite Ha, (opt_truthy_some _ Hne). reflexivity.
Qed.

(** Steps 1 and 2 of the handler: token, vision, and the agent request. *)
Lemma chat_until_agent cfg w req tok tr :
  w_auth w = AuthToken (Some tok) -> tok <> [] ->
  chat cfg w req tr =
  (resp <- agent_post w (detect_intent_url cfg (resolve_session_id w (req_session_id req))) tok
             (build_body cfg (req_message req) (chat_vision_result cfg w req)) ;;
   let '(status, text, b) := resp in
   if 400 <=? status then mraise (HTTPException status text) else
   df_response <- lift (resp_json b) ;;
   reply_text <- lift (_extract_reply_text df_response) ;;
   params <- lift (_extract_session_params df_response) ;;
   let ui := _normalize_for_ui params in
   vd <- lift (validate_opt_dict
                 (if getenv_is_1 (w_DEBUG_VISION w)
                  then option_map JObj (chat_vision_result cfg w req) else None)) ;;
   rd <- lift (validate_opt_dict
                 (if getenv_is_1 (w_DEBUG_RAW w) then Some df_response else None)) ;;
   mret {| session_id := resolve_session_id w (req_session_id req);
           reply := reply_text;
           business_profile := [(lit "business_stage", business_stage ui);
                                (lit "license_status", license_status ui);
                                (lit "business_tags", business_tags ui)];
           resp_compliance_checklist := compliance_checklist ui;
           vision_debug := vd;
           raw_agent_response := rd |})
    (tr ++ ETokenRefresh :: chat_vision_events cfg req).
Proof.
  intros Ha Hne. unfold chat.
  rewrite (mbind_ok _ _ _ _ _ (get_access_token_ok w tok tr Ha Hne)).
  unfold chat_vision_result, chat_vision_events.
  destruct (req_image_data req) as [img|] eqn:Himg.
  - destruct (opt_truthy (Some img)).
    + unfold mbind at 1 2, _call_vision_tool, mbind, emit, mret.
      rewrite <- app_assoc. reflexivity.
    + unfold mbind at 1, mret. reflexivity.
  - unfold mbind at 1, mret. reflexivity.
Qed.

(** The effects of one run once the token is granted: the refresh, the
    vision post when there is an image, then the agent post. *)
Lemma chat_trace cfg w req tok :
  w_auth w = AuthToken (Some tok) -> tok <> [] ->
  snd (run_chat cfg w req) =
  ETokenRefresh :: chat_vision_events cfg req
  ++ [EAgentPost (detect_intent_url cfg (resolve_session_id w (req_session_id req))) tok
                 (build_body cfg (req_message req) (chat_vision_result cfg w req))].
Proof.
  intros Ha Hne. unfold run_chat. rewrite (chat_until_agent cfg w req tok [] Ha Hne).
  unfold agent_post, mbind at 1, emit, mbind at 1.
  destruct (w_agent _ _ _) as [e|status text b]; simpl; [reflexivity|].
  destruct (400 <=? status); [reflexivity|].
  repeat (apply mbind_lift_trace; intros ? ?). reflexivity.
Qed.

Lemma validate_opt_dict_ok o a : validate_opt_dict o = Ok a -> a = o.
Proof. destruct o as [[]|]; simpl; congruence. Qed.

Ltac result_cases H :=
  repeat match type of H with
  | context [match ?x with Ok _ => _ | Err _ => _ end] =>
      let E := fresh "E" in destruct x eqn:E
  end.

(** What a successful run is made of. *)
Lemma chat_ok_inv cfg w req resp tr :
  run_chat cfg w req = (Ok resp, tr) ->
  exists tok status text df params,
    w_auth w = AuthToken (Some tok) /\ tok <> [] /\
    w_agent w (detect_intent_url cfg (resolve_session_id w (req_session_id req))) tok
      (build_body cfg (req_message req) (chat_vision_result cfg w req))
    = HResp status text (inr df) /\
    status < 400 /\
    _extract_reply_text df = Ok (reply resp) /\
    _extract_session_params df = Ok params /\
    session_id resp = resolve_session_id w (req_session_id req) /\
    resp_compliance_checklist resp = compliance_checklist (_normalize_for_ui params) /\
    vision_debug resp = (if getenv_is_1 (w_DEBUG_VISION w)
                         then option_map JObj (chat_vision_result cfg w req) else None) /\
    raw_agent_response resp = (if getenv_is_1 (w_DEBUG_RAW w) then Some df else None).
Proof.
  unfold run_chat. intros H.
  destruct (w_auth w) as [e|[tok|]] eqn:Ha.
  - unfold chat, _get_access_token, mbind, emit in H. rewrite Ha in H. discriminate.
  - destruct (list_eq_dec Z.eq_dec tok []) as [->|Hne].
    + unfold chat, _get_access_token, mbind, emit in H. rewrite Ha in H. discriminate.
    + rewrite (chat_until_agent cfg w req tok [] Ha Hne) in H.
      unfold agent_post, mbind at 1, emit, mbind at 1 in H.
      destruct (w_agent _ _ _) as [e|status text b] eqn:Hag; [discriminate|].
      simpl in H. destruct (400 <=? status) eqn:Hs; [discriminate|].
      destruct b as [msg|df]; [discriminate|]. simpl in H.
      unfold mbind, lift, mret, mraise in H.
      result_cases H; try discriminate.
      injection H as <- _.
      exists tok, status, text, df, a0. simpl.
      rewrite Z.leb_gt in Hs.
      repeat split; auto.
      all: eapply validate_opt_dict_ok; eassumption.
  - unfold chat, _get_access_token, mbind, emit in H. rewrite Ha in H. discriminate.
Qed.

Lemma uuid_str_length n : List.length (uuid_str n) = 36%nat.
Proof.
  unfold uuid_str.
  rewrite !length_app, !length_firstn, !length_skipn, length_map, length_seq.
  reflexivity.
Qed.

Lemma firstn_all_36 (l : pystr) : List.length l = 36%nat -> firstn 36 l = l.
Proof. intros H. apply firstn_all2. rewrite H. reflexivity. Qed.

Definition empty_response : ChatResponse := {|
  session_id := []; reply := []; business_profile := [];
  resp_compliance_checklist := []; vision_debug := None; raw_agent_response := None |}.

Definition ok_or_empty (r : result ChatResponse) : ChatResponse :=
  match r with Ok x => x | Err _ => empty_response end.

Definition sample_run := run_chat sample_cfg sample_world (sample_request None).

Definition sample_response : ChatResponse :=
  Eval vm_compute in ok_or_empty (fst sample_run).

Definition sample_trace : list event := Eval vm_compute in snd sample_run.

Lemma sample_run_eq : sample_run = (Ok sample_response, sample_trace).
Proof. vm_compute. reflexivity. Qed.

(* ================================================================== *)
(** * Claims *)

(** ** C1 *)

(** C1 (as stated, refuted): with both debug variables unset, the body
    sent for a successful [/chat] still has the keys [vision_debug] and
    [raw_agent_response], with the value [null]. *)
Lemma C1_debug_keys_present_as_null :
  fst (http_reply (fst sample_run)) = 200 /\
  json_field (lit "vision_debug") (snd (http_reply (fst sample_run))) = Some JNull /\
  json_field (lit "raw_agent_response") (snd (http_reply (fst sample_run))) = Some JNull.
Proof. vm_compute. repeat split; reflexivity. Qed.

(** C1 (amended): for every successful [/chat] run, when [DEBUG_VISION]
    is not ["1"] the response's [vision_debug] is [None] and the body has
    [vision_debug: null], whatever the vision result; likewise
    [DEBUG_RAW] and [raw_agent_response], whatever the agent answered. *)
Theorem C1_debug_fields_null_when_disabled cfg w req resp tr :
  run_chat cfg w req = (Ok resp, tr) ->
  (getenv_is_1 (w_DEBUG_VISION w) = false ->
   vision_debug resp = None /\
   json_field (lit "vision_debug") (serialize_ChatResponse resp) = Some JNull) /\
  (getenv_is_1 (w_DEBUG_RAW w) = false ->
   raw_agent_response resp = None /\
   json_field (lit "raw_agent_response") (serialize_ChatResponse resp) = Some JNull).
Proof.
  intros Hrun.
  destruct (chat_ok_inv _ _ _ _ _ Hrun)
    as (tok & status & text & df & params & _ & _ & _ & _ & _ & _ & _ & _ & Hvd & Hrd).
  split; intros Hoff.
  - rewrite Hoff in Hvd. split; [exact Hvd|].
    unfold serialize_ChatResponse. rewrite Hvd. reflexivity.
  - rewrite Hoff in Hrd. split; [exact Hrd|].
    unfold serialize_ChatResponse. rewrite Hrd. reflexivity.
Qed.

Lemma C1_witness :
  (vision_debug sample_response = None /\
   json_field (lit "vision_debug") (serialize_ChatResponse sample_response) = Some JNull) /\
  (raw_agent_response sample_response = None /\
   json_field (lit "raw_agent_response") (serialize_ChatResponse sample_response) = Some JNull).
Proof.
  destruct (C1_debug_fields_null_when_disabled sample_cfg sample_world (sample_request None)
              sample_response sample_trace ltac:(vm_compute; reflexivity)) as [H1 H2].
  split; [apply H1 | apply H2]; reflexivity.
Defined.

(** ** C2 *)

(** C2 (as stated, refuted): a supplied empty session id is not returned;
    the response carries a fresh 36-character id instead. *)
Lemma C2_empty_candidate_replaced :
  match fst (run_chat sample_cfg sample_world (sample_request (Some []))) with
  | Ok r => session_id r <> firstn 36 [] /\ List.length (session_id r) = 36%nat
  | Err _ => False
  end.
Proof. vm_compute. split; [discriminate | reflexivity]. Qed.

(** C2 (amended): in every successful [/chat] run, a non-empty supplied
    session id comes back truncated to its first 36 characters with no
    other check; an absent or empty one is replaced by [str(uuid.uuid4())]
    of the run, which is non-empty and exactly 36 characters long. *)
Theorem C2_session_id_resolution cfg w req resp tr :
  run_chat cfg w req = (Ok resp, tr) ->
  (forall s, req_session_id req = Some s -> s <> [] -> session_id resp = firstn 36 s) /\
  (req_session_id req = None \/ req_session_id req = Some [] ->
   session_id resp = uuid_str (uuid4_int (w_uuid_bits w)) /\
   List.length (session_id resp) = 36%nat /\ session_id resp <> []).
Proof.
  intros Hrun.
  destruct (chat_ok_inv _ _ _ _ _ Hrun)
    as (tok & status & text & df & params & _ & _ & _ & _ & _ & _ & Hsid & _).
  rewrite Hsid. unfold resolve_session_id. split.
  - intros s Hs Hne. rewrite Hs, (opt_truthy_some _ Hne). reflexivity.
  - intros Hc.
    assert (Hu : firstn 36 (match req_session_id req with
                            | Some s => if opt_truthy (req_session_id req) then s
                                        else uuid_str (uuid4_int (w_uuid_bits w))
                            | None => uuid_str (uuid4_int (w_uuid_bits w))
                            end) = uuid_str (uuid4_int (w_uuid_bits w))).
    { destruct Hc as [-> | ->]; apply firstn_all_36, uuid_str_length. }
    rewrite Hu. split; [reflexivity|]. split; [apply uuid_str_length|].
    intros E. pose proof (uuid_str_length (uuid4_int (w_uuid_bits w))) as L.
    rewrite E in L. discriminate.
Qed.

Lemma C2_witness :
  (forall s, req_session_id (sample_request None) = Some s -> s <> [] ->
             session_id sample_response = firstn 36 s) /\
  session_id sample_response = uuid_str (uuid4_int (w_uuid_bits sample_world)) /\
  List.length (session_id sample_response) = 36%nat /\ session_id sample_response <> [].
Proof.
  destruct (C2_session_id_resolution sample_cfg sample_world (sample_request None)
              sample_response sample_trace ltac:(vm_compute; reflexivity)) as [H1 H2].
  split; [exact H1 | apply H2; left; reflexivity].
Defined.

(** ** C3 *)

(** C3 (as stated, refuted): a 200 answer [{"vision_data": {}}] is
    returned as it is; the result has no [success] key at all. *)
Lemma C3_success_flag_not_set :
  vision_result_of (HResp 200 (lit "{}") (inr (JObj [(lit "vision_data", JObj [])])))
  = [(lit "vision_data", JObj [])] /\
  dict_get (lit "success")
    (vision_result_of (HResp 200 (lit "{}") (inr (JObj [(lit "vision_data", JObj [])]))))
  = None.
Proof. split; reflexivity. Qed.

(** C3 (amended): when the vision service answers with a status below
    400 and a JSON dict containing [vision_data], [_call_vision_tool]
    posts once and returns that dict unchanged: its [vision_data] is the
    service's payload and its [success] entry is whatever the service sent. *)
Theorem C3_vision_body_passthrough cfg w img status text data tr :
  w_vision w (VISION_TOOL_URL cfg) (vision_request_body img)
  = HResp status text (inr (JObj data)) ->
  status < 400 ->
  dict_get (lit "vision_data") data <> None ->
  _call_vision_tool cfg w img tr
  = (Ok data, tr ++ [EVisionPost (VISION_TOOL_URL cfg) (vision_request_body img)]).
Proof.
  intros Hv Hs Hvd. unfold _call_vision_tool, mbind, emit, mret.
  rewrite Hv. simpl.
  destruct (400 <=? status) eqn:E; [apply Z.leb_le in E; lia|].
  destruct (dict_get (lit "vision_data") data); [reflexivity | contradiction].
Qed.

Definition sample_vision_world : world := {|
  w_uuid_bits := 7;
  w_auth := AuthToken (Some (lit "tok"));
  w_vision := fun _ _ => HResp 200 (lit "{}")
                 (inr (JObj [(lit "success", JBool true);
                             (lit "vision_data", JObj [(lit "sign", JStr (lit "cafe"))])]));
  w_agent := fun _ _ _ => HResp 200 (lit "{}") (inr sample_agent_body);
  w_DEBUG_RAW := None;
  w_DEBUG_VISION := Some (lit "1")
|}.

Lemma C3_witness :
  _call_vision_tool sample_cfg sample_vision_world (lit "aGVsbG8=") []
  = (Ok [(lit "success", JBool true);
         (lit "vision_data", JObj [(lit "sign", JStr (lit "cafe"))])],
     [EVisionPost (VISION_TOOL_URL sample_cfg) (vision_request_body (lit "aGVsbG8="))]).
Proof.
  apply (C3_vision_body_passthrough sample_cfg sample_vision_world (lit "aGVsbG8=") 200
           (lit "{}") [(lit "success", JBool true);
                       (lit "vision_data", JObj [(lit "sign", JStr (lit "cafe"))])] []).
  - reflexivity.
  - lia.
  - vm_compute. discriminate.
Defined.

(** ** C4 *)

Definition malformed_agent_body : json :=
  resp_of_messages [JObj [(lit "text", JStr (lit "hello"))]].

Definition malformed_agent_world : world := {|
  w_uuid_bits := 7;
  w_auth := AuthToken (Some (lit "tok"));
  w_vision := fun _ _ => HRaise (RequestException (lit "unused"));
  w_agent := fun _ _ _ => HResp 200 (lit "{}") (inr malformed_agent_body);
  w_DEBUG_RAW := None;
  w_DEBUG_VISION := None
|}.

(** C4 (code defect): a message whose [text] is a plain string rather
    than a dict makes [(m.get("text") or {}).get("text")] raise
    [AttributeError]; [_extract_reply_text] does not fall back, and the
    [/chat] request ends in a 500. *)
Theorem C4_non_dict_text_raises :
  _extract_reply_text malformed_agent_body = Err AttributeError /\
  fst (run_chat sample_cfg malformed_agent_world (sample_request None)) = Err AttributeError /\
  fst (http_reply (fst (run_chat sample_cfg malformed_agent_world (sample_request None)))) = 500.
Proof. vm_compute. repeat split; reflexivity. Qed.

(** ** C5 *)

Definition checklist_of (v : json) : dict := [(lit "compliance_checklist", v)].

(** C5 (as stated, refuted): the empty string is a single string but
    [params.get("compliance_checklist") or []] turns it into [[]]. *)
Lemma C5_empty_string_dropped :
  compliance_checklist (_normalize_for_ui (checklist_of (JStr []))) = [] /\
  compliance_checklist (_normalize_for_ui (checklist_of (JStr []))) <> [[]].
Proof. split; [reflexivity | discriminate]. Qed.

(** C5 (amended): the checklist of [_normalize_for_ui] is [[s]] for a
    non-empty string [s], empty for the empty string, [str] of every item
    in order for a list, and empty for any other value or a missing key. *)
Theorem C5_checklist_shapes (params : dict) :
  let k := lit "compliance_checklist" in
  let c := compliance_checklist (_normalize_for_ui params) in
  (forall s, dict_get k params = Some (JStr s) -> s <> [] -> c = [s]) /\
  (dict_get k params = Some (JStr []) -> c = []) /\
  (forall l, dict_get k params = Some (JList l) -> c = map py_str l) /\
  (forall v, dict_get k params = Some v -> is_str v = false ->
             (forall l, v <> JList l) -> c = []) /\
  (dict_get k params = None -> c = []).
Proof.
  cbv zeta. unfold _normalize_for_ui, dict_get_none. simpl compliance_checklist.
  repeat split.
  - intros s Hk Hne. rewrite Hk. unfold py_or. simpl.
    unfold pystr_eqb. destruct (list_eq_dec Z.eq_dec s []); [contradiction | reflexivity].
  - intros Hk. rewrite Hk. reflexivity.
  - intros l Hk. rewrite Hk. destruct l; reflexivity.
  - intros v Hk Hs Hl. rewrite Hk. unfold py_or.
    destruct (py_truthy v); destruct v; try discriminate; try reflexivity.
    exfalso. eapply Hl. reflexivity.
  - intros Hk. rewrite Hk. reflexivity.
Qed.

Lemma C5_witness :
  compliance_checklist (_normalize_for_ui (checklist_of (JStr (lit "x")))) = [lit "x"] /\
  compliance_checklist (_normalize_for_ui (checklist_of (JList [JStr (lit "x"); JInt 2])))
  = map py_str [JStr (lit "x"); JInt 2] /\
  compliance_checklist (_normalize_for_ui (checklist_of (JInt 5))) = [] /\
  compliance_checklist (_normalize_for_ui []) = [].
Proof.
  destruct (C5_checklist_shapes (checklist_of (JStr (lit "x")))) as [Hs _].
  destruct (C5_checklist_shapes (checklist_of (JList [JStr (lit "x"); JInt 2])))
    as (_ & _ & Hl & _).
  destruct (C5_checklist_shapes (checklist_of (JInt 5))) as (_ & _ & _ & Ho & _).
  destruct (C5_checklist_shapes []) as (_ & _ & _ & _ & Hn).
  split; [apply Hs; [reflexivity | discriminate]|].
  split; [apply Hl; reflexivity|].
  split; [apply (Ho (JInt 5)); [reflexivity | reflexivity | discriminate]|].
  apply Hn. reflexivity.
Defined.

(** ** C6 *)

Lemma extract_reply_ok_dict df r :
  _extract_reply_text df = Ok r -> exists kv, df = JObj kv.
Proof. destruct df; simpl; try discriminate. eauto. Qed.

Lemma extract_reply_ok_params df r :
  _extract_reply_text df = Ok r -> exists p, _extract_session_params df = Ok p.
Proof.
  unfold _extract_reply_text, _extract_session_params.
  intros H. destruct df; simpl in H; try discriminate. simpl.
  destruct (py_or _ (JObj [])); simpl in H; try discriminate. simpl.
  destruct (py_or _ (JObj [])); eexists; reflexivity.
Qed.

(** [_call_vision_tool] never raises: whatever the vision service does,
    it returns a dict after its one post. *)
Lemma call_vision_tool_total cfg w img tr :
  _call_vision_tool cfg w img tr
  = (Ok (vision_result_of (w_vision w (VISION_TOOL_URL cfg) (vision_request_body img))),
     tr ++ [EVisionPost (VISION_TOOL_URL cfg) (vision_request_body img)]).
Proof. reflexivity. Qed.

(** C6: for a request with an image, whatever the vision service does
    (raise, time out, answer an error status, send a body that is not JSON
    or lacks [vision_data]), [_call_vision_tool] returns a dict without
    raising, the handler goes on to post to the agent, and when the agent
    answers below 400 with a reply that can be extracted, [/chat] returns a
    response whose reply is the one extracted from the agent's answer. *)
Theorem C6_vision_failure_is_soft cfg w req img tok status text df r :
  req_image_data req = Some img -> img <> [] ->
  w_auth w = AuthToken (Some tok) -> tok <> [] ->
  (forall u t b, w_agent w u t b = HResp status text (inr df)) -> status < 400 ->
  _extract_reply_text df = Ok r ->
  (forall tr, exists d,
      _call_vision_tool cfg w img tr
      = (Ok d, tr ++ [EVisionPost (VISION_TOOL_URL cfg) (vision_request_body img)])) /\
  In (EAgentPost (detect_intent_url cfg (resolve_session_id w (req_session_id req))) tok
                 (build_body cfg (req_message req) (chat_vision_result cfg w req)))
     (snd (run_chat cfg w req)) /\
  exists resp, fst (run_chat cfg w req) = Ok resp /\ reply resp = r.
Proof.
  intros Himg Hne Ha Htok Hag Hs Hr.
  split; [intros tr; eexists; apply call_vision_tool_total|].
  split.
  { rewrite (chat_trace cfg w req tok Ha Htok). right.
    apply in_or_app. right. left. reflexivity. }
  destruct (extract_reply_ok_params df r Hr) as [p Hp].
  destruct (extract_reply_ok_dict df r Hr) as [kv ->].
  unfold run_chat. rewrite (chat_until_agent cfg w req tok [] Ha Htok).
  unfold agent_post, mbind at 1, emit, mbind at 1. rewrite Hag. simpl.
  destruct (400 <=? status) eqn:E; [apply Z.leb_le in E; lia|].
  unfold mbind, lift, mret. simpl. rewrite Hr, Hp.
  destruct (getenv_is_1 (w_DEBUG_VISION w)), (getenv_is_1 (w_DEBUG_RAW w));
    try destruct (chat_vision_result cfg w req);
    simpl; eexists; split; reflexivity.
Qed.

Definition vision_down_world : world := {|
  w_uuid_bits := 99;
  w_auth := AuthToken (Some (lit "tok"));
  w_vision := fun _ _ => HRaise (RequestException (lit "Read timed out. (read timeout=30)"));
  w_agent := fun _ _ _ => HResp 200 (lit "{}") (inr sample_agent_body);
  w_DEBUG_RAW := Some (lit "1");
  w_DEBUG_VISION := Some (lit "1")
|}.

Lemma C6_witness :
  (forall tr, exists d,
      _call_vision_tool sample_cfg vision_down_world (lit "aGVsbG8=") tr
      = (Ok d, tr ++ [EVisionPost (VISION_TOOL_URL sample_cfg)
                                  (vision_request_body (lit "aGVsbG8="))])) /\
  In (EAgentPost (detect_intent_url sample_cfg
                    (resolve_session_id vision_down_world (req_session_id (sample_request None))))
                 (lit "tok")
                 (build_body sample_cfg (req_message (sample_request None))
                    (chat_vision_result sample_cfg vision_down_world (sample_request None))))
     (snd (run_chat sample_cfg vision_down_world (sample_request None))) /\
  exists resp, fst (run_chat sample_cfg vision_down_world (sample_request None)) = Ok resp
               /\ reply resp = lit "Hello".
Proof.
  apply (C6_vision_failure_is_soft sample_cfg vision_down_world (sample_request None)
           (lit "aGVsbG8=") (lit "tok") 200 (lit "{}") sample_agent_body (lit "Hello")).
  - reflexivity.
  - discriminate.
  - reflexivity.
  - discriminate.
  - intros; reflexivity.
  - lia.
  - vm_compute. reflexivity.
Defined.

(** ** C7 *)

(** C7: when the agent answers with a status of 400 or more, [/chat]
    raises [HTTPException] with that status and the agent's response text
    as [detail], right after the agent post (nothing is extracted or
    normalised); FastAPI then answers with the same status. *)
Theorem C7_agent_error_passthrough cfg w req tok status text b :
  w_auth w = AuthToken (Some tok) -> tok <> [] ->
  (forall u t body, w_agent w u t body = HResp status text b) -> 400 <= status ->
  run_chat cfg w req =
  (Err (HTTPException status text),
   ETokenRefresh :: chat_vision_events cfg req
   ++ [EAgentPost (detect_intent_url cfg (resolve_session_id w (req_session_id req))) tok
                  (build_body cfg (req_message req) (chat_vision_result cfg w req))]) /\
  http_reply (fst (run_chat cfg w req)) = (status, JObj [(lit "detail", JStr text)]).
Proof.
  intros Ha Htok Hag Hs.
  assert (H : run_chat cfg w req =
    (Err (HTTPException status text),
     ETokenRefresh :: chat_vision_events cfg req
     ++ [EAgentPost (detect_intent_url cfg (resolve_session_id w (req_session_id req))) tok
                    (build_body cfg (req_message req) (chat_vision_result cfg w req))])).
  { unfold run_chat. rewrite (chat_until_agent cfg w req tok [] Ha Htok).
    unfold agent_post, mbind at 1, emit, mbind at 1. rewrite Hag. simpl.
    apply Z.leb_le in Hs. rewrite Hs. reflexivity. }
  split; [exact H | rewrite H; reflexivity].
Qed.

Definition quota_world : world := {|
  w_uuid_bits := 5;
  w_auth := AuthToken (Some (lit "tok"));
  w_vision := fun _ _ => HRaise (RequestException (lit "unused"));
  w_agent := fun _ _ _ => HResp 429 (lit "RESOURCE_EXHAUSTED") (inr JNull);
  w_DEBUG_RAW := None;
  w_DEBUG_VISION := None
|}.

Lemma C7_witness :
  run_chat sample_cfg quota_world (sample_request None) =
  (Err (HTTPException 429 (lit "RESOURCE_EXHAUSTED")),
   ETokenRefresh :: chat_vision_events sample_cfg (sample_request None)
   ++ [EAgentPost (detect_intent_url sample_cfg
                     (resolve_session_id quota_world (req_session_id (sample_request None))))
                  (lit "tok")
                  (build_body sample_cfg (req_message (sample_request None))
                     (chat_vision_result sample_cfg quota_world (sample_request None)))]) /\
  http_reply (fst (run_chat sample_cfg quota_world (sample_request None)))
  = (429, JObj [(lit "detail", JStr (lit "RESOURCE_EXHAUSTED"))]).
Proof.
  apply (C7_agent_error_passthrough sample_cfg quota_world (sample_request None) (lit "tok")
           429 (lit "RESOURCE_EXHAUSTED") (inr JNull)).
  - reflexivity.
  - discriminate.
  - intros; reflexivity.
  - lia.
Defined.

(** ** C8 *)

(** C8: for a request with an image, once the token is granted the
    handler performs exactly three effects in this order: the token
    refresh, the vision post, and the agent post, whose body is built from
    the vision result the vision post returned. *)
Theorem C8_vision_before_agent cfg w req img tok :
  req_image_data req = Some img -> img <> [] ->
  w_auth w = AuthToken (Some tok) -> tok <> [] ->
  snd (run_chat cfg w req) =
  [ETokenRefresh;
   EVisionPost (VISION_TOOL_URL cfg) (vision_request_body img);
   EAgentPost (detect_intent_url cfg (resolve_session_id w (req_session_id req))) tok
     (build_body cfg (req_message req)
        (Some (vision_result_of (w_vision w (VISION_TOOL_URL cfg) (vision_request_body img)))))].
Proof.
  intros Himg Hne Ha Htok.
  rewrite (chat_trace cfg w req tok Ha Htok).
  unfold chat_vision_events, chat_vision_result. rewrite Himg, (opt_truthy_some _ Hne).
  reflexivity.
Qed.

Lemma C8_witness :
  snd (run_chat sample_cfg sample_vision_world (sample_request None)) =
  [ETokenRefresh;
   EVisionPost (VISION_TOOL_URL sample_cfg) (vision_request_body (lit "aGVsbG8="));
   EAgentPost (detect_intent_url sample_cfg
                 (resolve_session_id sample_vision_world (req_session_id (sample_request None))))
     (lit "tok")
     (build_body sample_cfg (req_message (sample_request None))
        (Some (vision_result_of (w_vision sample_vision_world (VISION_TOOL_URL sample_cfg)
                                   (vision_request_body (lit "aGVsbG8="))))))].
Proof.
  apply (C8_vision_before_agent sample_cfg sample_vision_world (sample_request None)
           (lit "aGVsbG8=") (lit "tok")).
  - reflexivity.
  - discriminate.
  - reflexivity.
  - discriminate.
Defined.

(** ** C9 *)

Lemma reply_loop_app c xs ys :
  reply_loop c (xs ++ ys) = rbind (reply_loop c xs) (fun c' => reply_loop c' ys).
Proof.
  revert c. induction xs as [|m xs IH]; intros c; simpl; [reflexivity|].
  destruct (reply_step c m); simpl; [apply IH | reflexivity].
Qed.

Lemma dict_get_nonempty k (d : dict) v : dict_get k d = Some v -> d <> [].
Proof. intros H ->. discriminate. Qed.

(** Whatever other keys the response and its [queryResult] hold, the reply
    is computed from the [responseMessages] list alone. *)
Lemma extract_reply_general kv q ms :
  dict_get (lit "queryResult") kv = Some (JObj q) ->
  dict_get (lit "responseMessages") q = Some (JList ms) ->
  _extract_reply_text (JObj kv)
  = rbind (reply_loop [] ms)
          (fun chunks => Ok (match chunks with
                             | [] => fallback_reply
                             | _ => py_strip (py_join [10] chunks)
                             end)).
Proof.
  intros Hq Hm. unfold _extract_reply_text. cbn [py_get rbind]. rewrite Hq.
  destruct q as [|kv0 q]; [discriminate|].
  unfold py_or at 1. cbn [py_truthy]. cbv iota. cbn [py_get rbind]. rewrite Hm.
  destruct ms; reflexivity.
Qed.

Definition str_items (l : list json) : list pystr :=
  flat_map (fun t => match t with JStr s => [s] | _ => [] end) l.

Lemma str_items_filter l : str_items (filter is_str l) = str_items l.
Proof. induction l as [|[] l IH]; simpl; auto. rewrite IH. reflexivity. Qed.

(** The text fragments a message with text payload [v] contributes. *)
Definition text_fragments (v : json) : list pystr :=
  match v with
  | JList l => str_items l
  | JStr s => [s]
  | _ => []
  end.

Lemma reply_step_payload c m :
  reply_step c m = rbind (message_payload m) (fun v => Ok (c ++ text_fragments v)).
Proof.
  unfold reply_step, message_payload.
  destruct (py_get m (lit "text") JNull) as [t|e]; cbn [rbind]; [|reflexivity].
  destruct (py_get (py_or t (JObj [])) (lit "text") JNull) as [v|e]; cbn [rbind]; [|reflexivity].
  destruct v; cbn [text_fragments]; rewrite ?app_nil_r; reflexivity.
Qed.

Lemma reply_loop_payloads c ms vs :
  Forall2 (fun m v => message_payload m = Ok v) ms vs ->
  reply_loop c ms = Ok (c ++ flat_map text_fragments vs).
Proof.
  intros H. revert c. induction H as [|m v ms vs Hm H IH]; intros c; simpl.
  - rewrite app_nil_r. reflexivity.
  - rewrite reply_step_payload, Hm. cbn [rbind]. rewrite IH, app_assoc. reflexivity.
Qed.

(** C9: for any two agent responses (whatever their other keys) whose
    [responseMessages] lists differ in one message only: when that message's
    text payload is a list in one and the list of its string items in the
    other, the replies are the same; and a message whose text payload is
    neither a str nor a list (a missing or null [text], a [text] dict
    without [text], a number, ...) gives the same reply as leaving that
    message out. Messages whose payload lookup raises are those of C4. *)
Theorem C9_non_strings_dropped (kv1 kv2 q1 q2 : dict) (pre post : list json) (m1 m2 : json) :
  dict_get (lit "queryResult") kv1 = Some (JObj q1) ->
  dict_get (lit "queryResult") kv2 = Some (JObj q2) ->
  (forall l,
     message_payload m1 = Ok (JList l) ->
     message_payload m2 = Ok (JList (filter is_str l)) ->
     dict_get (lit "responseMessages") q1 = Some (JList (pre ++ m1 :: post)) ->
     dict_get (lit "responseMessages") q2 = Some (JList (pre ++ m2 :: post)) ->
     _extract_reply_text (JObj kv1) = _extract_reply_text (JObj kv2)) /\
  (forall v,
     message_payload m1 = Ok v -> is_str v = false -> (forall l, v <> JList l) ->
     dict_get (lit "responseMessages") q1 = Some (JList (pre ++ m1 :: post)) ->
     dict_get (lit "responseMessages") q2 = Some (JList (pre ++ post)) ->
     _extract_reply_text (JObj kv1) = _extract_reply_text (JObj kv2)).
Proof.
  intros Hq1 Hq2. split.
  - intros l Hp1 Hp2 Hm1 Hm2.
    rewrite (extract_reply_general _ _ _ Hq1 Hm1), (extract_reply_general _ _ _ Hq2 Hm2),
      !reply_loop_app.
    destruct (reply_loop [] pre) as [c|e]; cbn [rbind reply_loop]; [|reflexivity].
    rewrite !reply_step_payload, Hp1, Hp2. cbn [rbind text_fragments].
    rewrite str_items_filter. reflexivity.
  - intros v Hp Hs Hl Hm1 Hm2.
    rewrite (extract_reply_general _ _ _ Hq1 Hm1), (extract_reply_general _ _ _ Hq2 Hm2),
      !reply_loop_app.
    destruct (reply_loop [] pre) as [c|e]; cbn [rbind reply_loop]; [|reflexivity].
    rewrite reply_step_payload, Hp. cbn [rbind].
    assert (E : text_fragments v = []).
    { destruct v; try discriminate; try reflexivity. exfalso. eapply Hl. reflexivity. }
    rewrite E, app_nil_r. reflexivity.
Qed.

(** Two agent answers with the usual extra keys: the first message carries
    a list with a number in it, or a [text] that is [null]. *)
Definition agent_message (payload : json) : json :=
  JObj [(lit "responseType", JStr (lit "ENTRY_PROMPT"));
        (lit "text", JObj [(lit "text", payload); (lit "redactedText", payload)])].

Definition agent_answer (ms : list json) : json :=
  JObj [(lit "responseId", JStr (lit "r-1"));
        (lit "queryResult",
         JObj [(lit "text", JStr (lit "hi"));
               (lit "responseMessages", JList ms);
               (lit "parameters", JObj [(lit "business_stage", JStr (lit "new"))])])].

Definition as_dict (df : json) : dict := match df with JObj kv => kv | _ => [] end.

Definition agent_query (ms : list json) : dict :=
  [(lit "text", JStr (lit "hi")); (lit "responseMessages", JList ms);
   (lit "parameters", JObj [(lit "business_stage", JStr (lit "new"))])].

Lemma C9_witness :
  _extract_reply_text
    (JObj (as_dict (agent_answer [agent_message (JList [JStr (lit "a"); JInt 1; JStr (lit "b")]);
                                 text_message (JStr (lit "c"))])))
  = _extract_reply_text
      (JObj (as_dict (agent_answer [agent_message (JList [JStr (lit "a"); JStr (lit "b")]);
                                   text_message (JStr (lit "c"))]))) /\
  _extract_reply_text
    (JObj (as_dict (agent_answer [JObj [(lit "text", JNull)]; text_message (JStr (lit "c"))])))
  = _extract_reply_text (JObj (as_dict (agent_answer [text_message (JStr (lit "c"))]))).
Proof.
  split.
  - destruct (C9_non_strings_dropped
                (as_dict (agent_answer [agent_message (JList [JStr (lit "a"); JInt 1; JStr (lit "b")]);
                                       text_message (JStr (lit "c"))]))
                (as_dict (agent_answer [agent_message (JList [JStr (lit "a"); JStr (lit "b")]);
                                       text_message (JStr (lit "c"))]))
                (agent_query [agent_message (JList [JStr (lit "a"); JInt 1; JStr (lit "b")]);
                           text_message (JStr (lit "c"))])
                (agent_query [agent_message (JList [JStr (lit "a"); JStr (lit "b")]);
                           text_message (JStr (lit "c"))])
                [] [text_message (JStr (lit "c"))]
                (agent_message (JList [JStr (lit "a"); JInt 1; JStr (lit "b")]))
                (agent_message (JList [JStr (lit "a"); JStr (lit "b")]))
                ltac:(vm_compute; reflexivity) ltac:(vm_compute; reflexivity)) as [H _].
    apply (H [JStr (lit "a"); JInt 1; JStr (lit "b")]); vm_compute; reflexivity.
  - destruct (C9_non_strings_dropped
                (as_dict (agent_answer [JObj [(lit "text", JNull)]; text_message (JStr (lit "c"))]))
                (as_dict (agent_answer [text_message (JStr (lit "c"))]))
                (agent_query [JObj [(lit "text", JNull)]; text_message (JStr (lit "c"))])
                (agent_query [text_message (JStr (lit "c"))])
                [] [text_message (JStr (lit "c"))]
                (JObj [(lit "text", JNull)]) (JObj [(lit "text", JNull)])
                ltac:(vm_compute; reflexivity) ltac:(vm_compute; reflexivity)) as [_ H].
    apply (H JNull); try (vm_compute; reflexivity). discriminate.
Defined.

(** ** C10 *)

(** The vision call was made and returned a dict whose [success] is truthy
    and whose [vision_data] is the dict [vd]. *)
Definition vision_forwarded (cfg : config) (w : world) (req : ChatRequest) (vd : json) : Prop :=
  exists img, req_image_data req = Some img /\ img <> [] /\
    let d := vision_result_of (w_vision w (VISION_TOOL_URL cfg) (vision_request_body img)) in
    py_truthy (dict_get_none (lit "success") d) = true /\
    dict_get (lit "vision_data") d = Some vd /\ exists x, vd = JObj x.

Lemma sent_parameters_build_body cfg msg vr :
  sent_parameter (lit "vision_data") (build_body cfg msg vr) = forwarded_vision_data vr /\
  sent_parameter (lit "has_image") (build_body cfg msg vr)
  = option_map (fun _ => JBool true) (forwarded_vision_data vr).
Proof.
  unfold build_body.
  destruct (forwarded_vision_data vr) as [vd|];
    destruct (CURRENT_PLAYBOOK cfg) as [pb|]; try destruct (opt_truthy (Some pb));
    split; reflexivity.
Qed.

Lemma forwarded_iff cfg w req vd :
  forwarded_vision_data (chat_vision_result cfg w req) = Some vd <->
  vision_forwarded cfg w req vd.
Proof.
  unfold vision_forwarded, chat_vision_result.
  destruct (req_image_data req) as [img|] eqn:Himg.
  2:{ split; [discriminate|]. intros (i & H & _). discriminate. }
  destruct (list_eq_dec Z.eq_dec img []) as [->|Hne].
  { simpl. split; [discriminate|]. intros (i & H & Hi & _). injection H as <-. contradiction. }
  rewrite (opt_truthy_some _ Hne).
  set (d := vision_result_of (w_vision w (VISION_TOOL_URL cfg) (vision_request_body img))).
  unfold forwarded_vision_data, dict_get_none.
  split.
  - intros H.
    destruct (py_truthy (JObj d) && py_truthy _) eqn:Ht; [|discriminate].
    apply andb_true_iff in Ht as [_ Hsucc].
    destruct (dict_get (lit "vision_data") d) as [[]|] eqn:Evd; try discriminate.
    injection H as <-. exists img. repeat split; eauto.
  - intros (i & Hi & _ & Hsucc & Hvd & x & ->). injection Hi as <-.
    fold d in Hsucc, Hvd. rewrite Hsucc, Hvd.
    assert (Hd : py_truthy (JObj d) = true).
    { destruct d; [discriminate | reflexivity]. }
    rewrite Hd. reflexivity.
Qed.

(** C10: in the agent request that [/chat] posts, [parameters.vision_data]
    is present (and equal to [vd]) exactly when the vision call was made and
    returned a truthy [success] with the dict [vd] as [vision_data]; then
    [parameters.has_image] is [true]; otherwise neither is present. *)
Theorem C10_vision_parameters cfg w req tok :
  w_auth w = AuthToken (Some tok) -> tok <> [] ->
  let body := build_body cfg (req_message req) (chat_vision_result cfg w req) in
  In (EAgentPost (detect_intent_url cfg (resolve_session_id w (req_session_id req))) tok body)
     (snd (run_chat cfg w req)) /\
  (forall vd, sent_parameter (lit "vision_data") body = Some vd <->
              vision_forwarded cfg w req vd) /\
  (sent_parameter (lit "has_image") body = Some (JBool true) <->
   exists vd, vision_forwarded cfg w req vd) /\
  ((forall vd, ~ vision_forwarded cfg w req vd) ->
   sent_parameter (lit "vision_data") body = None /\
   sent_parameter (lit "has_image") body = None).
Proof.
  intros Ha Htok body.
  destruct (sent_parameters_build_body cfg (req_message req) (chat_vision_result cfg w req))
    as [Hv Hh].
  fold body in Hv, Hh.
  split.
  { rewrite (chat_trace cfg w req tok Ha Htok). right.
    apply in_or_app. right. left. reflexivity. }
  split; [intros vd; rewrite Hv; apply forwarded_iff|].
  split.
  - rewrite Hh. split.
    + intros H. destruct (forwarded_vision_data _) as [vd|] eqn:E; [|discriminate].
      exists vd. apply forwarded_iff. exact E.
    + intros [vd H]. apply forwarded_iff in H. rewrite H. reflexivity.
  - intros Hno. rewrite Hv, Hh.
    destruct (forwarded_vision_data _) as [vd|] eqn:E; [|split; reflexivity].
    exfalso. apply (Hno vd). apply forwarded_iff. exact E.
Qed.

Lemma C10_witness :
  let body := build_body sample_cfg (req_message (sample_request None))
                (chat_vision_result sample_cfg sample_vision_world (sample_request None)) in
  In (EAgentPost (detect_intent_url sample_cfg
                    (resolve_session_id sample_vision_world (req_session_id (sample_request None))))
                 (lit "tok") body)
     (snd (run_chat sample_cfg sample_vision_world (sample_request None))) /\
  (forall vd, sent_parameter (lit "vision_data") body = Some vd <->
              vision_forwarded sample_cfg sample_vision_world (sample_request None) vd) /\
  (sent_parameter (lit "has_image") body = Some (JBool true) <->
   exists vd, vision_forwarded sample_cfg sample_vision_world (sample_request None) vd) /\
  ((forall vd, ~ vision_forwarded sample_cfg sample_vision_world (sample_request None) vd) ->
   sent_parameter (lit "vision_data") body = None /\
   sent_parameter (lit "has_image") body = None).
Proof.
  apply (C10_vision_parameters sample_cfg sample_vision_world (sample_request None) (lit "tok")).
  - reflexivity.
  - discriminate.
Defined.

(* ================================================================== *)
(** * Further properties of the code *)

(** ** [str.strip] *)

(** No whitespace at either end. *)
Definition stripped (s : pystr) : Prop :=
  match s with
  | [] => True
  | c :: _ => py_isspace c = false /\ py_isspace (last s 0) = false
  end.

Lemma lstrip_head s :
  lstrip s = [] \/ exists c t, lstrip s = c :: t /\ py_isspace c = false.
Proof.
  induction s as [|c s IH]; simpl; [left; reflexivity|].
  destruct (py_isspace c) eqn:E; [exact IH | right; eauto].
Qed.

Lemma lstrip_app_nonspace l d :
  py_isspace d = false -> exists l', lstrip (l ++ [d]) = l' ++ [d].
Proof.
  intros Hd. induction l as [|x l IH]; simpl.
  - rewrite Hd. exists []. reflexivity.
  - destruct (py_isspace x); [exact IH | exists (x :: l); reflexivity].
Qed.

Lemma last_rev_cons (x : Z) y : last (rev (x :: y)) 0 = x.
Proof. simpl. apply last_last. Qed.

Lemma py_strip_stripped s : stripped (py_strip s).
Proof.
  unfold py_strip.
  destruct (lstrip_head s) as [-> | (d & v & Hu & Hd)]; [exact I|].
  rewrite Hu. simpl rev.
  destruct (lstrip_app_nonspace (rev v) d Hd) as [l' E1].
  rewrite E1, rev_app_distr. simpl.
  split; [exact Hd|].
  destruct l' as [|x l'']; [exact Hd|].
  destruct (lstrip_head (rev v ++ [d])) as [E | (c & t & E & Hc)];
    rewrite E1 in E; [destruct l''; discriminate|].
  injection E as <- _.
  assert (Hne : rev (x :: l'') <> []).
  { intros H. apply (f_equal (@List.length Z)) in H.
    rewrite length_rev in H. discriminate. }
  destruct (rev (x :: l'')) as [|y r] eqn:Er; [contradiction|].
  change (last (d :: y :: r) 0) with (last (y :: r) 0).
  rewrite <- Er, last_rev_cons. exact Hc.
Qed.

Lemma lstrip_all_space s : (forall c, In c s -> py_isspace c = true) -> lstrip s = [].
Proof.
  induction s as [|c s IH]; intros H; simpl; [reflexivity|].
  rewrite (H c (or_introl eq_refl)). apply IH. intros x Hx. apply H. right. exact Hx.
Qed.

Lemma in_lstrip c s : In c (lstrip s) -> In c s.
Proof.
  induction s as [|x s IH]; simpl; [auto|].
  destruct (py_isspace x); simpl; intuition.
Qed.

Lemma in_py_strip c s : In c (py_strip s) -> In c s.
Proof.
  unfold py_strip. intros H.
  apply in_lstrip. apply in_rev. apply in_lstrip. apply in_rev. exact H.
Qed.

(** ** [_extract_reply_text] *)

Lemma fallback_reply_stripped : stripped fallback_reply.
Proof. vm_compute. split; reflexivity. Qed.

(** Whatever the agent answered, a reply that [_extract_reply_text]
    returns never starts or ends with whitespace. *)
Theorem extract_reply_stripped df r :
  _extract_reply_text df = Ok r -> stripped r.
Proof.
  unfold _extract_reply_text. intros H.
  repeat match type of H with
         | rbind ?x _ = _ => destruct x; simpl in H; [|discriminate]
         end.
  injection H as <-.
  destruct a2; [apply fallback_reply_stripped | apply py_strip_stripped].
Qed.

Lemma extract_reply_stripped_witness : stripped (lit "Hello").
Proof.
  apply (extract_reply_stripped sample_agent_body (lit "Hello")). vm_compute. reflexivity.
Defined.

(** For any agent response whose [queryResult] dict holds a
    [responseMessages] list in which every message's text payload can be
    read, the reply is the fragments of all messages in order (a str, or
    the str items of a list), joined by newlines and stripped, and the
    fallback when there is none. *)
Theorem extract_reply_text_messages kv q ms vs :
  dict_get (lit "queryResult") kv = Some (JObj q) ->
  dict_get (lit "responseMessages") q = Some (JList ms) ->
  Forall2 (fun m v => message_payload m = Ok v) ms vs ->
  _extract_reply_text (JObj kv)
  = Ok (match flat_map text_fragments vs with
        | [] => fallback_reply
        | cs => py_strip (py_join [10] cs)
        end).
Proof.
  intros Hq Hm Hp.
  rewrite (extract_reply_general _ _ _ Hq Hm), (reply_loop_payloads _ _ _ Hp). simpl.
  destruct (flat_map text_fragments vs); reflexivity.
Qed.

Lemma extract_reply_text_messages_witness :
  _extract_reply_text
    (JObj (as_dict (agent_answer [agent_message (JList [JStr (lit "a"); JInt 1]);
                                 text_message (JStr (lit "b"))])))
  = Ok (py_strip (py_join [10] [lit "a"; lit "b"])).
Proof.
  apply (extract_reply_text_messages _
           (agent_query [agent_message (JList [JStr (lit "a"); JInt 1]); text_message (JStr (lit "b"))])
           [agent_message (JList [JStr (lit "a"); JInt 1]); text_message (JStr (lit "b"))]
           [JList [JStr (lit "a"); JInt 1]; JStr (lit "b")]);
    [vm_compute; reflexivity | vm_compute; reflexivity |].
  repeat constructor.
Defined.

Lemma join_all_space cs :
  (forall s c, In s cs -> In c s -> py_isspace c = true) ->
  forall c, In c (py_join [10] cs) -> py_isspace c = true.
Proof.
  intros H. induction cs as [|s cs IH]; simpl; [contradiction|].
  intros c Hc. destruct cs as [|s' cs'].
  - eapply H; [left; reflexivity | exact Hc].
  - apply in_app_or in Hc as [Hc | Hc]; [eapply H; [left; reflexivity | exact Hc]|].
    destruct Hc as [<- | Hc].
    + reflexivity.
    + apply IH; [intros s0 c0 Hs0 Hc0; eapply H; [right; exact Hs0 | exact Hc0] | exact Hc].
Qed.

(** Edge case: for any agent response as above, when there are fragments
    but they hold only whitespace, the reply is the empty string, not the
    fallback. *)
Theorem extract_reply_whitespace_only kv q ms vs :
  dict_get (lit "queryResult") kv = Some (JObj q) ->
  dict_get (lit "responseMessages") q = Some (JList ms) ->
  Forall2 (fun m v => message_payload m = Ok v) ms vs ->
  flat_map text_fragments vs <> [] ->
  (forall s c, In s (flat_map text_fragments vs) -> In c s -> py_isspace c = true) ->
  _extract_reply_text (JObj kv) = Ok [].
Proof.
  intros Hq Hm Hp Hne Hsp.
  rewrite (extract_reply_general _ _ _ Hq Hm), (reply_loop_payloads _ _ _ Hp). simpl.
  pose proof (lstrip_all_space _ (join_all_space _ Hsp)) as L.
  destruct (flat_map text_fragments vs) as [|s cs]; [contradiction|].
  unfold py_strip. rewrite L. reflexivity.
Qed.

Lemma extract_reply_whitespace_only_witness :
  _extract_reply_text
    (JObj (as_dict (agent_answer [agent_message (JList [JStr (lit " "); JInt 1]);
                                 text_message (JStr [10])])))
  = Ok [].
Proof.
  apply (extract_reply_whitespace_only _
           (agent_query [agent_message (JList [JStr (lit " "); JInt 1]); text_message (JStr [10])])
           [agent_message (JList [JStr (lit " "); JInt 1]); text_message (JStr [10])]
           [JList [JStr (lit " "); JInt 1]; JStr [10]]).
  - vm_compute; reflexivity.
  - vm_compute; reflexivity.
  - repeat constructor.
  - discriminate.
  - simpl. intros s c Hs Hc.
    destruct Hs as [<- | [<- | []]]; destruct Hc as [<- | []]; reflexivity.
Defined.

(** Missing or empty data gives the fallback: no [queryResult], a falsy
    one, or a [queryResult] dict without [responseMessages] or with a falsy
    one. *)
Theorem extract_reply_fallback_cases kv :
  (dict_get (lit "queryResult") kv = None ->
   _extract_reply_text (JObj kv) = Ok fallback_reply) /\
  (forall q, dict_get (lit "queryResult") kv = Some q -> py_truthy q = false ->
   _extract_reply_text (JObj kv) = Ok fallback_reply) /\
  (forall q, dict_get (lit "queryResult") kv = Some (JObj q) ->
   (dict_get (lit "responseMessages") q = None \/
    exists m, dict_get (lit "responseMessages") q = Some m /\ py_truthy m = false) ->
   _extract_reply_text (JObj kv) = Ok fallback_reply).
Proof.
  unfold _extract_reply_text. split; [|split].
  - intros H. simpl. rewrite H. reflexivity.
  - intros q H Hf. simpl. rewrite H. unfold py_or at 1. rewrite Hf. reflexivity.
  - intros q H Hm. simpl. rewrite H. unfold py_or at 1.
    destruct (py_truthy (JObj q)) eqn:Tq; [|reflexivity]. simpl.
    destruct Hm as [-> | (m & -> & Hf)]; [reflexivity|].
    unfold py_or. rewrite Hf. reflexivity.
Qed.

Lemma extract_reply_fallback_cases_witness :
  _extract_reply_text (JObj []) = Ok fallback_reply /\
  _extract_reply_text (JObj [(lit "queryResult", JNull)]) = Ok fallback_reply /\
  _extract_reply_text (JObj [(lit "queryResult", JObj [(lit "responseMessages", JList [])])])
  = Ok fallback_reply.
Proof.
  destruct (extract_reply_fallback_cases []) as [H1 _].
  destruct (extract_reply_fallback_cases [(lit "queryResult", JNull)]) as [_ [H2 _]].
  destruct (extract_reply_fallback_cases
              [(lit "queryResult", JObj [(lit "responseMessages", JList [])])]) as [_ [_ H3]].
  split; [apply H1; reflexivity|].
  split; [apply (H2 JNull); reflexivity|].
  apply (H3 [(lit "responseMessages", JList [])]); [reflexivity|].
  right. exists (JList []). split; reflexivity.
Defined.

(** ** [_extract_session_params] *)

(** [queryResult.parameters] is returned when it is a dict; a missing
    or non-dict [parameters], or a missing or falsy [queryResult], gives
    [{}]; a response that is not a dict, or a truthy [queryResult] that is
    not a dict, raises [AttributeError]. *)
Theorem extract_session_params_cases (kv : dict) :
  (forall q p, dict_get (lit "queryResult") kv = Some (JObj q) ->
   dict_get (lit "parameters") q = Some (JObj p) ->
   _extract_session_params (JObj kv) = Ok p) /\
  (forall q, dict_get (lit "queryResult") kv = Some (JObj q) ->
   (forall p, dict_get (lit "parameters") q <> Some (JObj p)) ->
   _extract_session_params (JObj kv) = Ok []) /\
  (dict_get (lit "queryResult") kv = None ->
   _extract_session_params (JObj kv) = Ok []) /\
  (forall q, dict_get (lit "queryResult") kv = Some q -> py_truthy q = false ->
   _extract_session_params (JObj kv) = Ok []) /\
  (forall q, dict_get (lit "queryResult") kv = Some q -> py_truthy q = true ->
   (forall d, q <> JObj d) ->
   _extract_session_params (JObj kv) = Err AttributeError).
Proof.
  unfold _extract_session_params. simpl. split; [|split; [|split; [|split]]].
  - intros q p Hq Hp. rewrite Hq. unfold py_or at 1.
    destruct q as [|x q']; [discriminate|]. simpl. rewrite Hp.
    unfold py_or. destruct p; reflexivity.
  - intros q Hq Hp. rewrite Hq. unfold py_or at 1.
    destruct (py_truthy (JObj q)); simpl.
    + destruct (dict_get (lit "parameters") q) as [v|]; [|reflexivity].
      unfold py_or. destruct (py_truthy v) eqn:T; [|reflexivity].
      destruct v; try reflexivity. exfalso. eapply Hp. reflexivity.
    + reflexivity.
  - intros Hq. rewrite Hq. reflexivity.
  - intros q Hq Hf. rewrite Hq. unfold py_or at 1. rewrite Hf. reflexivity.
  - intros q Hq Ht Hnd. rewrite Hq. unfold py_or at 1. rewrite Ht.
    destruct q; try reflexivity. exfalso. eapply Hnd. reflexivity.
Qed.

Lemma extract_session_params_cases_witness :
  _extract_session_params
    (JObj [(lit "queryResult", JObj [(lit "parameters", JObj [(lit "a", JInt 1)])])])
  = Ok [(lit "a", JInt 1)] /\
  _extract_session_params
    (JObj [(lit "queryResult", JObj [(lit "parameters", JList [JInt 1])])]) = Ok [] /\
  _extract_session_params (JObj []) = Ok [] /\
  _extract_session_params (JObj [(lit "queryResult", JInt 0)]) = Ok [] /\
  _extract_session_params (JObj [(lit "queryResult", JStr (lit "x"))]) = Err AttributeError.
Proof.
  destruct (extract_session_params_cases
              [(lit "queryResult", JObj [(lit "parameters", JObj [(lit "a", JInt 1)])])])
    as [H1 _].
  destruct (extract_session_params_cases
              [(lit "queryResult", JObj [(lit "parameters", JList [JInt 1])])])
    as [_ [H2 _]].
  destruct (extract_session_params_cases []) as [_ [_ [H3 _]]].
  destruct (extract_session_params_cases [(lit "queryResult", JInt 0)]) as [_ [_ [_ [H4 _]]]].
  destruct (extract_session_params_cases [(lit "queryResult", JStr (lit "x"))])
    as [_ [_ [_ [_ H5]]]].
  split; [apply (H1 [(lit "parameters", JObj [(lit "a", JInt 1)])]); reflexivity|].
  split; [apply (H2 [(lit "parameters", JList [JInt 1])]); [reflexivity | discriminate]|].
  split; [apply H3; reflexivity|].
  split; [apply (H4 (JInt 0)); reflexivity|].
  apply (H5 (JStr (lit "x"))); [reflexivity | reflexivity | discriminate].
Defined.

(** ** Business profile of [_normalize_for_ui] *)

(** Each profile field is [None] exactly when the key is missing or
    [null]; any other value, falsy ones included, becomes [str(value)]. *)
Theorem normalize_profile_fields (params : dict) :
  let field k f :=
    (forall v, dict_get k params = Some v -> v <> JNull ->
               f (_normalize_for_ui params) = Some (py_str v)) /\
    (dict_get k params = None \/ dict_get k params = Some JNull ->
     f (_normalize_for_ui params) = None) in
  field (lit "business_stage") business_stage /\
  field (lit "license_status") license_status /\
  field (lit "business_tags") business_tags.
Proof.
  cbv zeta. unfold _normalize_for_ui, dict_get_none.
  cbn [business_stage license_status business_tags].
  repeat split;
    first [ intros v Hk Hn; rewrite Hk;
            destruct v; try reflexivity; exfalso; apply Hn; reflexivity
          | intros [Hk | Hk]; rewrite Hk; reflexivity ].
Qed.

Lemma normalize_profile_fields_witness :
  business_stage (_normalize_for_ui [(lit "business_stage", JBool false)])
  = Some (lit "False") /\
  license_status (_normalize_for_ui [(lit "license_status", JInt 0)]) = Some (lit "0") /\
  business_tags (_normalize_for_ui [(lit "business_tags", JNull)]) = None.
Proof.
  destruct (normalize_profile_fields [(lit "business_stage", JBool false)]) as [[H1 _] _].
  destruct (normalize_profile_fields [(lit "license_status", JInt 0)]) as [_ [[H2 _] _]].
  destruct (normalize_profile_fields [(lit "business_tags", JNull)]) as [_ [_ [_ H3]]].
  split; [apply (H1 (JBool false)); [reflexivity | discriminate]|].
  split; [apply (H2 (JInt 0)); [reflexivity | discriminate]|].
  apply H3. right. reflexivity.
Defined.

(** ** [_call_vision_tool] outcomes *)

Definition vision_failure (msg : pystr) : dict :=
  [(lit "success", JBool false); (lit "error", JStr msg)].

(** Every outcome of the vision call is one of two: the service's own dict,
    when it answered below 400 with a JSON dict holding [vision_data]; or
    [{"success": False, "error": msg}], which is never forwarded to the
    agent. *)
Theorem vision_result_classification (r : http_outcome) :
  (exists status text d,
      r = HResp status text (inr (JObj d)) /\ status < 400 /\
      dict_get (lit "vision_data") d <> None /\ vision_result_of r = d) \/
  (exists msg, vision_result_of r = vision_failure msg /\
               forwarded_vision_data (Some (vision_result_of r)) = None).
Proof.
  destruct r as [e | status text [msg | v]]; simpl.
  - right. eexists. split; reflexivity.
  - destruct (400 <=? status); right; eexists; split; reflexivity.
  - destruct (400 <=? status) eqn:E; [right; eexists; split; reflexivity|].
    destruct v as [| | | | | | d]; try (right; eexists; split; reflexivity).
    destruct (dict_get (lit "vision_data") d) eqn:Hd;
      [| right; eexists; split; reflexivity].
    left. exists status, text, d. rewrite Z.leb_gt in E.
    repeat split; auto. rewrite Hd. discriminate.
Qed.

(** An error status from the vision service yields
    ["Vision HTTP <status>: " + the first 500 characters of its text],
    whatever the body is. *)
Theorem vision_http_error_message status text b :
  400 <= status ->
  exists part,
    vision_result_of (HResp status text b)
    = vision_failure (lit "Vision HTTP " ++ z_dec status ++ lit ": " ++ part) /\
    (List.length part <= 500)%nat /\ part ++ skipn 500 text = text.
Proof.
  intros Hs. exists (firstn 500 text). unfold vision_result_of.
  apply Z.leb_le in Hs. rewrite Hs.
  split; [reflexivity|]. split; [apply firstn_le_length | apply firstn_skipn].
Qed.

Lemma vision_http_error_message_witness :
  exists part,
    vision_result_of (HResp 503 (lit "unavailable") (inl (lit "not json")))
    = vision_failure (lit "Vision HTTP " ++ z_dec 503 ++ lit ": " ++ part) /\
    (List.length part <= 500)%nat /\ part ++ skipn 500 (lit "unavailable") = lit "unavailable".
Proof. apply vision_http_error_message. lia. Defined.

(** ** [_get_access_token] *)

(** The token is returned only when it is a non-empty string; a missing
    or empty token raises [RuntimeError]; the refresh is attempted in every
    case. *)
Theorem get_access_token_spec w tr :
  (forall tok tr', _get_access_token w tr = (Ok tok, tr') ->
   w_auth w = AuthToken (Some tok) /\ tok <> [] /\ tr' = tr ++ [ETokenRefresh]) /\
  (w_auth w = AuthToken None \/ w_auth w = AuthToken (Some []) ->
   _get_access_token w tr
   = (Err (RuntimeError (lit "Failed to obtain access token from ADC")), tr ++ [ETokenRefresh])) /\
  (forall e, w_auth w = AuthRaise e -> _get_access_token w tr = (Err e, tr ++ [ETokenRefresh])).
Proof.
  unfold _get_access_token, mbind, emit.
  split; [|split].
  - intros tok tr' H. destruct (w_auth w) as [e|[t|]]; try discriminate.
    destruct (opt_truthy (Some t)) eqn:T; [|discriminate].
    injection H as <- <-. repeat split.
    intros ->. discriminate.
  - intros [-> | ->]; reflexivity.
  - intros e ->. reflexivity.
Qed.

Definition no_token_world : world := {|
  w_uuid_bits := 1;
  w_auth := AuthToken (Some []);
  w_vision := fun _ _ => HRaise (RequestException (lit "unused"));
  w_agent := fun _ _ _ => HResp 200 (lit "{}") (inr sample_agent_body);
  w_DEBUG_RAW := None;
  w_DEBUG_VISION := None
|}.

Lemma get_access_token_spec_witness :
  _get_access_token no_token_world []
  = (Err (RuntimeError (lit "Failed to obtain access token from ADC")), [ETokenRefresh]).
Proof.
  destruct (get_access_token_spec no_token_world []) as [_ [H _]].
  apply H. right. reflexivity.
Defined.

(** ** Failure paths of [/chat] *)

(** When no token is obtained, the handler raises that error and calls
    neither the vision service nor the agent. *)
Theorem chat_auth_failure_no_calls cfg w req e tr :
  _get_access_token w [] = (Err e, tr) ->
  run_chat cfg w req = (Err e, [ETokenRefresh]).
Proof.
  unfold run_chat, chat. intros H.
  unfold mbind at 1. rewrite H.
  unfold _get_access_token, mbind, emit in H.
  destruct (w_auth w); [injection H as _ <-; reflexivity|].
  destruct token as [t|]; [destruct (opt_truthy (Some t))|]; injection H as _ <-; reflexivity.
Qed.

Lemma chat_auth_failure_no_calls_witness :
  run_chat sample_cfg no_token_world (sample_request None)
  = (Err (RuntimeError (lit "Failed to obtain access token from ADC")), [ETokenRefresh]).
Proof.
  apply (chat_auth_failure_no_calls sample_cfg no_token_world (sample_request None)
           (RuntimeError (lit "Failed to obtain access token from ADC")) [ETokenRefresh]).
  reflexivity.
Defined.

(** An exception of the agent call (timeout, connection error) is not
    caught: the handler raises it right after the agent post; so does a
    success status whose body is not JSON. *)
Theorem chat_agent_failure_propagates cfg w req tok :
  w_auth w = AuthToken (Some tok) -> tok <> [] ->
  let tr := ETokenRefresh :: chat_vision_events cfg req
            ++ [EAgentPost (detect_intent_url cfg (resolve_session_id w (req_session_id req))) tok
                           (build_body cfg (req_message req) (chat_vision_result cfg w req))] in
  (forall e, (forall u t b, w_agent w u t b = HRaise e) -> run_chat cfg w req = (Err e, tr)) /\
  (forall status text msg, status < 400 ->
   (forall u t b, w_agent w u t b = HResp status text (inl msg)) ->
   run_chat cfg w req = (Err (JSONDecodeError msg), tr)).
Proof.
  intros Ha Htok tr. unfold tr, run_chat.
  rewrite (chat_until_agent cfg w req tok [] Ha Htok).
  unfold agent_post, mbind at 1, emit, mbind at 1.
  split.
  - intros e Hag. rewrite Hag. reflexivity.
  - intros status text msg Hs Hag. rewrite Hag.
    assert (E : (400 <=? status) = false) by (apply Z.leb_gt; lia).
    unfold mbind, mret. cbv beta iota zeta. rewrite E. reflexivity.
Qed.

Definition agent_down_world : world := {|
  w_uuid_bits := 3;
  w_auth := AuthToken (Some (lit "tok"));
  w_vision := fun _ _ => HRaise (RequestException (lit "unused"));
  w_agent := fun _ _ _ => HRaise (RequestException (lit "Read timed out. (read timeout=30)"));
  w_DEBUG_RAW := None;
  w_DEBUG_VISION := None
|}.

Lemma chat_agent_failure_propagates_witness :
  fst (run_chat sample_cfg agent_down_world (sample_request None))
  = Err (RequestException (lit "Read timed out. (read timeout=30)")).
Proof.
  destruct (chat_agent_failure_propagates sample_cfg agent_down_world (sample_request None)
              (lit "tok") eq_refl ltac:(discriminate)) as [H _].
  rewrite (H (RequestException (lit "Read timed out. (read timeout=30)"))); [reflexivity|].
  intros; reflexivity.
Defined.

(** ** Debug payloads and the default profile in [/chat] *)

(** With [DEBUG_VISION=1] the response carries the vision result as the
    handler held it (the service's dict or the failure dict, [None] without
    an image); with [DEBUG_RAW=1] it carries the agent's decoded answer,
    the one the reply was extracted from. *)
Theorem chat_debug_enabled cfg w req resp tr :
  run_chat cfg w req = (Ok resp, tr) ->
  (getenv_is_1 (w_DEBUG_VISION w) = true ->
   vision_debug resp = option_map JObj (chat_vision_result cfg w req)) /\
  (getenv_is_1 (w_DEBUG_RAW w) = true ->
   exists tok status text df,
     w_agent w (detect_intent_url cfg (resolve_session_id w (req_session_id req))) tok
       (build_body cfg (req_message req) (chat_vision_result cfg w req))
     = HResp status text (inr df) /\
     raw_agent_response resp = Some df /\ _extract_reply_text df = Ok (reply resp)).
Proof.
  intros Hrun.
  destruct (chat_ok_inv _ _ _ _ _ Hrun)
    as (tok & status & text & df & params & _ & _ & Hag & _ & Hr & _ & _ & _ & Hvd & Hrd).
  split; intros Hon.
  - rewrite Hon in Hvd. exact Hvd.
  - rewrite Hon in Hrd. exists tok, status, text, df. repeat split; assumption.
Qed.

Definition sample_debug_run := run_chat sample_cfg vision_down_world (sample_request None).

Lemma chat_debug_enabled_witness :
  vision_debug (ok_or_empty (fst sample_debug_run))
  = option_map JObj (chat_vision_result sample_cfg vision_down_world (sample_request None)) /\
  exists tok status text df,
    w_agent vision_down_world
      (detect_intent_url sample_cfg
         (resolve_session_id vision_down_world (req_session_id (sample_request None)))) tok
      (build_body sample_cfg (req_message (sample_request None))
         (chat_vision_result sample_cfg vision_down_world (sample_request None)))
    = HResp status text (inr df) /\
    raw_agent_response (ok_or_empty (fst sample_debug_run)) = Some df /\
    _extract_reply_text df = Ok (reply (ok_or_empty (fst sample_debug_run))).
Proof.
  destruct (chat_debug_enabled sample_cfg vision_down_world (sample_request None)
              (ok_or_empty (fst sample_debug_run)) (snd sample_debug_run)
              ltac:(vm_compute; reflexivity)) as [H1 H2].
  split; [apply H1 | apply H2]; reflexivity.
Defined.

(** The business profile and checklist of a successful response, read off
    the agent's answer. *)
Lemma chat_ok_profile cfg w req resp tr :
  run_chat cfg w req = (Ok resp, tr) ->
  exists tok status text df params,
    w_agent w (detect_intent_url cfg (resolve_session_id w (req_session_id req))) tok
      (build_body cfg (req_message req) (chat_vision_result cfg w req))
    = HResp status text (inr df) /\
    _extract_session_params df = Ok params /\
    business_profile resp =
      [(lit "business_stage", business_stage (_normalize_for_ui params));
       (lit "license_status", license_status (_normalize_for_ui params));
       (lit "business_tags", business_tags (_normalize_for_ui params))] /\
    resp_compliance_checklist resp = compliance_checklist (_normalize_for_ui params).
Proof.
  unfold run_chat. intros H.
  destruct (w_auth w) as [e|[tok|]] eqn:Ha.
  - unfold chat, _get_access_token, mbind, emit in H. rewrite Ha in H. discriminate.
  - destruct (list_eq_dec Z.eq_dec tok []) as [->|Hne].
    + unfold chat, _get_access_token, mbind, emit in H. rewrite Ha in H. discriminate.
    + rewrite (chat_until_agent cfg w req tok [] Ha Hne) in H.
      unfold agent_post, mbind at 1, emit, mbind at 1 in H.
      destruct (w_agent _ _ _) as [e|status text b] eqn:Hag; [discriminate|].
      simpl in H. destruct (400 <=? status) eqn:Hs; [discriminate|].
      destruct b as [msg|df]; [discriminate|]. simpl in H.
      unfold mbind, lift, mret, mraise in H.
      result_cases H; try discriminate.
      injection H as <- _.
      exists tok, status, text, df, a0. repeat split; assumption.
  - unfold chat, _get_access_token, mbind, emit in H. rewrite Ha in H. discriminate.
Qed.

(** When the agent's [queryResult] has no dict under [parameters], the
    response's profile fields are all [None] and its checklist is empty. *)
Theorem chat_default_profile cfg w req resp tr kv q :
  run_chat cfg w req = (Ok resp, tr) ->
  (forall u t b status text df, w_agent w u t b = HResp status text (inr df) -> df = JObj kv) ->
  dict_get (lit "queryResult") kv = Some (JObj q) ->
  (forall p, dict_get (lit "parameters") q <> Some (JObj p)) ->
  business_profile resp = [(lit "business_stage", None); (lit "license_status", None);
                           (lit "business_tags", None)] /\
  resp_compliance_checklist resp = [].
Proof.
  intros Hrun Hdf Hq Hp.
  destruct (chat_ok_profile _ _ _ _ _ Hrun)
    as (tok & status & text & df & params & Hag & Hpar & Hbp & Hcl).
  rewrite (Hdf _ _ _ _ _ _ Hag) in Hpar.
  destruct (extract_session_params_cases kv) as [_ [H _]].
  rewrite (H q Hq Hp) in Hpar. injection Hpar as <-.
  rewrite Hbp, Hcl. split; reflexivity.
Qed.

Definition no_params_body : json :=
  JObj [(lit "queryResult",
         JObj [(lit "responseMessages", JList [text_message (JStr (lit "Hi"))])])].

Definition no_params_world : world := {|
  w_uuid_bits := 11;
  w_auth := AuthToken (Some (lit "tok"));
  w_vision := fun _ _ => HRaise (RequestException (lit "unused"));
  w_agent := fun _ _ _ => HResp 200 (lit "{}") (inr no_params_body);
  w_DEBUG_RAW := None;
  w_DEBUG_VISION := None
|}.

Definition no_params_request : ChatRequest := {|
  req_session_id := None;
  req_message := lit "I want to open a new business";
  req_image_data := None
|}.

Definition no_params_run := run_chat sample_cfg no_params_world no_params_request.

Lemma chat_default_profile_witness :
  business_profile (ok_or_empty (fst no_params_run))
  = [(lit "business_stage", None); (lit "license_status", None); (lit "business_tags", None)] /\
  resp_compliance_checklist (ok_or_empty (fst no_params_run)) = [].
Proof.
  apply (chat_default_profile sample_cfg no_params_world no_params_request
           (ok_or_empty (fst no_params_run)) (snd no_params_run)
           [(lit "queryResult",
             JObj [(lit "responseMessages", JList [text_message (JStr (lit "Hi"))])])]
           [(lit "responseMessages", JList [text_message (JStr (lit "Hi"))])]).
  - vm_compute. reflexivity.
  - simpl. intros u t b status text df H. injection H as _ _ <-. reflexivity.
  - reflexivity.
  - intros p. discriminate.
Defined.

(** ** The detectIntent request body *)

Definition sent_query_param (k : pystr) (body : json) : option json :=
  match json_field (lit "queryParams") body with
  | Some q => json_field k q
  | None => None
  end.

(** The body always carries the configured language code and the user's
    message verbatim; [queryParams] is left out when there is neither a
    playbook nor vision data to send. *)
Theorem build_body_query_input cfg msg vr :
  json_field (lit "queryInput") (build_body cfg msg vr)
  = Some (JObj [(lit "languageCode", JStr (LANGUAGE_CODE cfg));
                (lit "text", JObj [(lit "text", JStr msg)])]) /\
  (opt_truthy (CURRENT_PLAYBOOK cfg) = false -> forwarded_vision_data vr = None ->
   json_field (lit "queryParams") (build_body cfg msg vr) = None).
Proof.
  unfold build_body. split.
  - destruct (CURRENT_PLAYBOOK cfg) as [pb|]; [destruct (opt_truthy (Some pb))|];
      destruct (forwarded_vision_data vr); reflexivity.
  - intros Hp Hv. rewrite Hv.
    destruct (CURRENT_PLAYBOOK cfg) as [pb|]; [rewrite Hp|]; reflexivity.
Qed.

Lemma build_body_query_input_witness :
  json_field (lit "queryInput") (build_body sample_cfg (lit "hi") None)
  = Some (JObj [(lit "languageCode", JStr (LANGUAGE_CODE sample_cfg));
                (lit "text", JObj [(lit "text", JStr (lit "hi"))])]) /\
  json_field (lit "queryParams") (build_body sample_cfg (lit "hi") None) = None.
Proof.
  destruct (build_body_query_input sample_cfg (lit "hi") None) as [H1 H2].
  split; [exact H1 | apply H2; reflexivity].
Defined.

(** From the environment variable to the request: a [CURRENT_PLAYBOOK]
    that is unset, empty or only whitespace puts no [currentPlaybook] in
    the request; otherwise the request carries it stripped. *)
Theorem playbook_from_env cfg env msg vr :
  CURRENT_PLAYBOOK cfg = current_playbook_of_env env ->
  (forall s, env = Some s -> py_strip s <> [] ->
   sent_query_param (lit "currentPlaybook") (build_body cfg msg vr) = Some (JStr (py_strip s))) /\
  (env = None \/ (exists s, env = Some s /\ py_strip s = []) ->
   sent_query_param (lit "currentPlaybook") (build_body cfg msg vr) = None).
Proof.
  intros Hcfg. unfold build_body, sent_query_param. rewrite Hcfg.
  unfold current_playbook_of_env. split.
  - intros s -> Hne.
    assert (Hs : s <> []) by (intros ->; apply Hne; reflexivity).
    rewrite (opt_truthy_some _ Hs), (opt_truthy_some _ Hne).
    destruct (forwarded_vision_data vr); reflexivity.
  - intros [-> | (s & -> & Hs)].
    + destruct (forwarded_vision_data vr); reflexivity.
    + destruct (opt_truthy (Some s)); [rewrite Hs|];
        destruct (forwarded_vision_data vr); reflexivity.
Qed.

Definition env_cfg (env : option pystr) : config := {|
  PROJECT_ID := PROJECT_ID sample_cfg;
  LOCATION := LOCATION sample_cfg;
  AGENT_ID := AGENT_ID sample_cfg;
  LANGUAGE_CODE := LANGUAGE_CODE sample_cfg;
  DIALOGFLOW_API_BASE := DIALOGFLOW_API_BASE sample_cfg;
  CURRENT_PLAYBOOK := current_playbook_of_env env;
  VISION_TOOL_URL := VISION_TOOL_URL sample_cfg
|}.

Lemma playbook_from_env_witness :
  sent_query_param (lit "currentPlaybook") (build_body (env_cfg (Some (lit " pb "))) (lit "hi") None)
  = Some (JStr (py_strip (lit " pb "))) /\
  sent_query_param (lit "currentPlaybook") (build_body (env_cfg (Some (lit "   "))) (lit "hi") None)
  = None.
Proof.
  destruct (playbook_from_env (env_cfg (Some (lit " pb "))) (Some (lit " pb ")) (lit "hi") None
              eq_refl) as [H1 _].
  destruct (playbook_from_env (env_cfg (Some (lit "   "))) (Some (lit "   ")) (lit "hi") None
              eq_refl) as [_ H2].
  split.
  - apply H1; [reflexivity | vm_compute; discriminate].
  - apply H2. right. exists (lit "   "). split; reflexivity.
Defined.

(** ** [CORS_ALLOW_ORIGINS] *)

Lemma py_split_no_sep sep s piece : In piece (py_split sep s) -> ~ In sep piece.
Proof.
  revert piece. induction s as [|c t IH]; intros piece; simpl.
  - intros [<- | []]. simpl. auto.
  - destruct (c =? sep) eqn:E.
    + intros [<- | H]; [simpl; auto | apply IH; exact H].
    + destruct (py_split sep t) as [|x r] eqn:Es.
      * intros [<- | []]. intros [Hc | []]. subst. rewrite Z.eqb_refl in E. discriminate.
      * intros [<- | H].
        -- intros [Hc | Hx].
           ++ subst. rewrite Z.eqb_refl in E. discriminate.
           ++ apply (IH x); [left; reflexivity | exact Hx].
        -- apply IH. right. exact H.
Qed.

(** Every allowed origin is non-empty, has no surrounding whitespace and
    contains no comma; without the variable the list is [["*"]]. *)
Theorem cors_origins_well_formed env :
  cors_allow_origins None = [lit "*"] /\
  (forall o, In o (cors_allow_origins env) -> o <> [] /\ stripped o /\ ~ In 44 o).
Proof.
  split; [reflexivity|].
  intros o. unfold cors_allow_origins.
  destruct (pystr_eqb _ (lit "*")).
  - intros [<- | []]. vm_compute. split; [discriminate|]. split; [split; reflexivity|].
    intros [H | []]. discriminate.
  - intros H. apply in_flat_map in H as (piece & Hp & Ho).
    destruct (pystr_eqb (py_strip piece) []) eqn:E; [destruct Ho|].
    destruct Ho as [<- | []].
    split; [|split].
    + intros Hn. rewrite Hn in E. discriminate.
    + apply py_strip_stripped.
    + intros Hc. apply in_py_strip in Hc. exact (py_split_no_sep _ _ _ Hp Hc).
Qed.

Lemma cors_origins_well_formed_witness :
  cors_allow_origins (Some (lit " a.example , ,b.example ")) = [lit "a.example"; lit "b.example"] /\
  (lit "b.example" <> [] /\ stripped (lit "b.example") /\ ~ In 44 (lit "b.example")).
Proof.
  destruct (cors_origins_well_formed (Some (lit " a.example , ,b.example "))) as [_ H].
  split; [vm_compute; reflexivity|].
  apply H. vm_compute. right. left. reflexivity.
Defined.

(** ** Generated session ids *)

Ltac uuid_bit :=
  unfold uuid4_int;
  repeat first [ rewrite Z.land_spec | rewrite Z.lor_spec
               | rewrite Z.lnot_spec by lia | rewrite Z.shiftl_spec by lia ];
  repeat match goal with |- context [Z.testbit ?b ?k] =>
           is_var b; destruct (Z.testbit b k) end;
  reflexivity.

Lemma uuid4_version_nibble bits : Z.land (Z.shiftr (uuid4_int bits) 76) 15 = 4.
Proof.
  apply Z.bits_inj'. intros j Hj.
  rewrite Z.land_spec, Z.shiftr_spec by lia.
  destruct (Z.lt_ge_cases j 4) as [Hl|Hl].
  - assert (j = 0 \/ j = 1 \/ j = 2 \/ j = 3) as [E|[E|[E|E]]] by lia; subst j; uuid_bit.
  - rewrite (Z.bits_above_log2 15 j), (Z.bits_above_log2 4 j) by (simpl; lia).
    apply andb_false_r.
Qed.

Lemma uuid4_variant_nibble bits :
  Z.land (Z.shiftr (uuid4_int bits) 60) 15 = Z.lor 8 (Z.land (Z.shiftr bits 60) 3).
Proof.
  apply Z.bits_inj'. intros j Hj.
  rewrite Z.land_spec, Z.shiftr_spec, Z.lor_spec, Z.land_spec, Z.shiftr_spec by lia.
  destruct (Z.lt_ge_cases j 4) as [Hl|Hl].
  - assert (j = 0 \/ j = 1 \/ j = 2 \/ j = 3) as [E|[E|[E|E]]] by lia; subst j; uuid_bit.
  - rewrite (Z.bits_above_log2 15 j), (Z.bits_above_log2 8 j), (Z.bits_above_log2 3 j)
      by (simpl; lia).
    rewrite !andb_false_r. reflexivity.
Qed.

Lemma hex_digit_range d : 0 <= d <= 15 ->
  (48 <= hex_digit d <= 57) \/ (97 <= hex_digit d <= 102).
Proof. unfold hex_digit. intros H. destruct (Z.ltb_spec d 10); lia. Qed.

Lemma land15_range x : 0 <= Z.land x 15 <= 15.
Proof.
  pose proof (Z.land_ones x 4 ltac:(lia)) as E.
  change (Z.ones 4) with 15 in E. change (2 ^ 4) with 16 in E. rewrite E.
  pose proof (Z.mod_pos_bound x 16 ltac:(lia)). lia.
Qed.

Lemma uuid_str_shape n :
  nth 8 (uuid_str n) 0 = 45 /\ nth 13 (uuid_str n) 0 = 45 /\
  nth 18 (uuid_str n) 0 = 45 /\ nth 23 (uuid_str n) 0 = 45 /\
  nth 14 (uuid_str n) 0 = hex_digit (Z.land (Z.shiftr n 76) 15) /\
  nth 19 (uuid_str n) 0 = hex_digit (Z.land (Z.shiftr n 60) 15) /\
  (forall c, In c (uuid_str n) -> c = 45 \/ (48 <= c <= 57) \/ (97 <= c <= 102)) /\
  (forall k, (k < 36)%nat -> ~ In k [8; 13; 18; 23]%nat ->
   (48 <= nth k (uuid_str n) 0 <= 57) \/ (97 <= nth k (uuid_str n) 0 <= 102)).
Proof.
  split; [reflexivity|]. split; [reflexivity|]. split; [reflexivity|].
  split; [reflexivity|]. split; [reflexivity|]. split; [reflexivity|].
  split.
  2:{ intros k Hk Hn.
      do 36 (destruct k as [|k];
             [cbn -[hex_digit Z.land Z.shiftr];
              first [ exfalso; apply Hn; simpl; tauto
                    | apply hex_digit_range, land15_range ] |]).
      exfalso; lia. }
  intros c Hc. unfold uuid_str in Hc. cbn -[hex_digit Z.land Z.shiftr] in Hc.
  repeat (destruct Hc as [<- | Hc]; [first [left; reflexivity | right; apply hex_digit_range, land15_range]|]).
  destruct Hc.
Qed.

Lemma land3_cases x : Z.land x 3 = 0 \/ Z.land x 3 = 1 \/ Z.land x 3 = 2 \/ Z.land x 3 = 3.
Proof.
  pose proof (Z.land_ones x 2 ltac:(lia)) as E.
  change (Z.ones 2) with 3 in E. change (2 ^ 2) with 4 in E. rewrite E.
  pose proof (Z.mod_pos_bound x 4 ltac:(lia)). lia.
Qed.

(** When the request has no usable session id, the one generated is a
    well-formed UUID version 4 string: 36 characters, hyphens at positions
    8, 13, 18 and 23, lowercase hexadecimal digits elsewhere, the version
    digit '4' at position 14 and a variant digit among 8, 9, a, b at
    position 19. *)
Theorem generated_session_id_uuid4 w candidate :
  opt_truthy candidate = false ->
  let s := resolve_session_id w candidate in
  List.length s = 36%nat /\
  nth 8 s 0 = 45 /\ nth 13 s 0 = 45 /\ nth 18 s 0 = 45 /\ nth 23 s 0 = 45 /\
  nth 14 s 0 = 52 /\ In (nth 19 s 0) [56; 57; 97; 98] /\
  (forall c, In c s -> c = 45 \/ (48 <= c <= 57) \/ (97 <= c <= 102)) /\
  (forall k, (k < 36)%nat -> ~ In k [8; 13; 18; 23]%nat ->
   (48 <= nth k s 0 <= 57) \/ (97 <= nth k s 0 <= 102)).
Proof.
  intros Hc s.
  assert (Hs : s = uuid_str (uuid4_int (w_uuid_bits w))).
  { unfold s, resolve_session_id.
    destruct candidate; [rewrite Hc|]; apply firstn_all_36, uuid_str_length. }
  rewrite Hs. clear s Hs.
  destruct (uuid_str_shape (uuid4_int (w_uuid_bits w)))
    as (H8 & H13 & H18 & H23 & H14 & H19 & Hall & Hhex).
  split; [apply uuid_str_length|].
  rewrite H14, H19, uuid4_version_nibble, uuid4_variant_nibble.
  repeat split; try assumption; try reflexivity.
  destruct (land3_cases (Z.shiftr (w_uuid_bits w) 60)) as [E|[E|[E|E]]]; rewrite E;
    simpl; tauto.
Qed.

Lemma generated_session_id_uuid4_witness :
  let s := resolve_session_id sample_world (Some []) in
  nth 14 s 0 = 52 /\ In (nth 19 s 0) [56; 57; 97; 98].
Proof.
  destruct (generated_session_id_uuid4 sample_world (Some []) eq_refl)
    as (_ & _ & _ & _ & _ & H14 & H19 & _ & _).
  split; [exact H14 | exact H19].
Defined.
